(** * Separating-axis box tests of libbg (src/libbg/sat.c)

    A shallow embedding of [bg_sat_abb_obb] and [bg_sat_obb_obb] and the
    properties the specification states about them.

    The C scalar type [fastf_t] is kept abstract (class [fastf_ops]); the
    functions are written once over it.  Two instances are used:
    - the real numbers, on which the algebraic laws are stated (exact
      arithmetic, no rounding);
    - IEEE binary64 (Rocq's primitive floats), on which concrete inputs are
      replayed bit for bit with the C operators +, -, *, /, sqrt, fabs, >, >=. *)

From Stdlib Require Import PrimFloat.
From Stdlib Require Uint63.
From Stdlib Require FloatAxioms FloatOps SpecFloat.
From Stdlib Require Import Reals Lra Lia ZArith List Bool.
Import ListNotations.

(** ** The scalar type *)

(** [fastf_t] with the operations sat.c applies to it. *)
Class fastf_ops (fastf_t : Type) : Type := {
  fzero : fastf_t;                          (* 0.0 *)
  fone  : fastf_t;                          (* 1.0 *)
  fhalf : fastf_t;                          (* 0.5 *)
  fint  : Z -> fastf_t;                     (* an integer constant *)
  fadd  : fastf_t -> fastf_t -> fastf_t;
  fsub  : fastf_t -> fastf_t -> fastf_t;
  fmul  : fastf_t -> fastf_t -> fastf_t;
  fdiv  : fastf_t -> fastf_t -> fastf_t;
  fsqrt : fastf_t -> fastf_t;
  fabs  : fastf_t -> fastf_t;
  fgt   : fastf_t -> fastf_t -> bool;       (* a > b *)
  fge   : fastf_t -> fastf_t -> bool        (* a >= b *)
}.

Declare Scope fastf_scope.
Delimit Scope fastf_scope with fastf.
Infix "+" := fadd : fastf_scope.
Infix "-" := fsub : fastf_scope.
Infix "*" := fmul : fastf_scope.
Infix "/" := fdiv : fastf_scope.
Infix ">?" := fgt (at level 70, no associativity) : fastf_scope.
Infix ">=?" := fge (at level 70, no associativity) : fastf_scope.

(** ** Vectors, arrays and the vmath.h macros *)

Section Vmath.
Context {fastf_t : Type} {ops : fastf_ops fastf_t}.
Local Open Scope fastf_scope.

(** [vect_t] and [point_t]: [fastf_t[3]]. *)
Record vect_t : Type := mkvect { vX : fastf_t; vY : fastf_t; vZ : fastf_t }.

(** [v[i]] for the indices 0, 1, 2 the code uses. *)
Definition vidx (v : vect_t) (i : nat) : fastf_t :=
  match i with
  | 0 => vX v
  | 1 => vY v
  | _ => vZ v
  end.

(** [v[i] = x]. *)
Definition vset (v : vect_t) (i : nat) (x : fastf_t) : vect_t :=
  match i with
  | 0 => mkvect x (vY v) (vZ v)
  | 1 => mkvect (vX v) x (vZ v)
  | _ => mkvect (vX v) (vY v) x
  end.

(** [vect_t A[3]], filled with three vectors. *)
Definition arr3 (a b c : vect_t) : nat -> vect_t :=
  fun i => match i with 0 => a | 1 => b | _ => c end.

(** A [fastf_t m[3][3]] table and the assignment [m[i][j] = x]. *)
Definition table : Type := nat -> nat -> fastf_t.

Definition tset (m : table) (i j : nat) (x : fastf_t) : table :=
  fun i' j' => if (Nat.eqb i' i && Nat.eqb j' j)%bool then x else m i' j'.

(** The macros of vmath.h that sat.c calls.  vmath.h is not among the
    sources: each is modelled from the spec, as the componentwise vector
    operation behind the derived forms the spec gives (centre (min+max)/2,
    half-extent (max-min)/2, D = C1 - C0, dot product, magnitude |v|). *)

(** Modelled from the spec: VMOVE of vmath.h, the copy of a vector. *)
Definition VMOVE (a : vect_t) : vect_t := a.

(** Modelled from the spec: VSET of vmath.h, a vector from three scalars. *)
Definition VSET (a b c : fastf_t) : vect_t := mkvect a b c.

(** Modelled from the spec: VADD2SCALE of vmath.h, [(a + b) * s]; with
    [s] = 0.5 the centre (min+max)/2. *)
Definition VADD2SCALE (a b : vect_t) (s : fastf_t) : vect_t :=
  mkvect ((vX a + vX b) * s) ((vY a + vY b) * s) ((vZ a + vZ b) * s).

(** Modelled from the spec: VSUB2SCALE of vmath.h, [(a - b) * s]; with
    [s] = 0.5 the half-extent (max-min)/2. *)
Definition VSUB2SCALE (a b : vect_t) (s : fastf_t) : vect_t :=
  mkvect ((vX a - vX b) * s) ((vY a - vY b) * s) ((vZ a - vZ b) * s).

(** Modelled from the spec: VSUB2 of vmath.h, [a - b]; D = C1 - C0. *)
Definition VSUB2 (a b : vect_t) : vect_t :=
  mkvect (vX a - vX b) (vY a - vY b) (vZ a - vZ b).

(** Modelled from the spec: VDOT of vmath.h, the dot product. *)
Definition VDOT (a b : vect_t) : fastf_t :=
  vX a * vX b + vY a * vY b + vZ a * vZ b.

(** Modelled from the spec: MAGSQ of vmath.h, the squared magnitude. *)
Definition MAGSQ (v : vect_t) : fastf_t :=
  vX v * vX v + vY v * vY v + vZ v * vZ v.

(** Modelled from the spec: MAGNITUDE of vmath.h, the magnitude |v|. *)
Definition MAGNITUDE (v : vect_t) : fastf_t := fsqrt (MAGSQ v).

(** Modelled from the spec: VUNITIZE of vmath.h, as "unit axis
    A[k] = extentK / |extentK|".  A zero-length vector divides by zero; what
    that yields is the scalar type's convention (the spec: not-a-number or the
    zero vector). *)
Definition VUNITIZE (v : vect_t) : vect_t :=
  let f := MAGNITUDE v in
  mkvect (vX v / f) (vY v / f) (vZ v / f).

End Vmath.

Arguments vect_t fastf_t : clear implicits.
Arguments table fastf_t : clear implicits.

Notation "v .[ i ]" := (vidx v i) (at level 1, left associativity, format "v .[ i ]").

(** ** The two predicates *)

Section Sat.
Context {fastf_t : Type} {ops : fastf_ops fastf_t}.
Local Open Scope fastf_scope.

(** Modelled from the spec: the constant VUNITIZE_TOL of vmath.h ("the
    system's standard unit-vector tolerance", fixed at build time).  Its value
    is not in the sources, so it is a parameter of the model. *)
Variable VUNITIZE_TOL : fastf_t.

(** The locals [dot01], [absDot01] and [existsParallelPair] that the three
    loops of each function assign. *)
Record dots : Type := mkdots {
  t_dot01 : table fastf_t;
  t_absDot01 : table fastf_t;
  t_existsParallelPair : Z
}.

(** The tables are uninitialised in C, and [existsParallelPair] starts at 0.
    Every table entry is assigned by a loop before it is read, so the initial
    contents given here never reach a result. *)
Definition dots_init : dots :=
  mkdots (fun _ _ => fzero) (fun _ _ => fzero) 0%Z.

(** [for (int i = 0; i < 3; ++i) body]. *)
Definition for3 {S : Type} (body : nat -> S -> S) (s : S) : S :=
  fold_left (fun s i => body i s) (seq 0 3) s.

(** sat.c:110-115, 123-128, 136-144: the loop of bg_sat_abb_obb for row [k]
    (the three loops differ in [k] only):
      dot01[k][i] = A1[i][k];
      absDot01[k][i] = fabs(A1[i][k]);
      if (absDot01[k][i] >= cutoff) existsParallelPair = 1; *)
Definition abb_row (k : nat) (A1 : nat -> vect_t fastf_t) (cutoff : fastf_t)
    (st : dots) : dots :=
  for3 (fun i st =>
    let dot01 := tset (t_dot01 st) k i (A1 i).[k] in
    let absDot01 := tset (t_absDot01 st) k i (fabs (A1 i).[k]) in
    let existsParallelPair :=
      if absDot01 k i >=? cutoff then 1%Z else t_existsParallelPair st in
    mkdots dot01 absDot01 existsParallelPair) st.

(** sat.c:314-319: the loop of bg_sat_obb_obb for row 0:
      dot01[0][i] = VDOT(A0[0], A1[i]);
      absDot01[0][i] = fabs(A1[i][0]);
      if (absDot01[0][i] >= cutoff) existsParallelPair = 1; *)
Definition obb_row0 (A0 A1 : nat -> vect_t fastf_t) (cutoff : fastf_t)
    (st : dots) : dots :=
  for3 (fun i st =>
    let dot01 := tset (t_dot01 st) 0 i (VDOT (A0 0) (A1 i)) in
    let absDot01 := tset (t_absDot01 st) 0 i (fabs (A1 i).[0]) in
    let existsParallelPair :=
      if absDot01 0 i >=? cutoff then 1%Z else t_existsParallelPair st in
    mkdots dot01 absDot01 existsParallelPair) st.

(** sat.c:328-333 and 342-347: the loops of bg_sat_obb_obb for rows
    [k] = 1 and 2:
      dot01[k][i] = VDOT(A0[k], A1[i]);
      absDot01[k][i] = fabs(dot01[k][i]);
      if (absDot01[k][i] > cutoff) existsParallelPair = 1; *)
Definition obb_row (k : nat) (A0 A1 : nat -> vect_t fastf_t) (cutoff : fastf_t)
    (st : dots) : dots :=
  for3 (fun i st =>
    let dot01 := tset (t_dot01 st) k i (VDOT (A0 k) (A1 i)) in
    let absDot01 := tset (t_absDot01 st) k i (fabs (dot01 k i)) in
    let existsParallelPair :=
      if absDot01 k i >? cutoff then 1%Z else t_existsParallelPair st in
    mkdots dot01 absDot01 existsParallelPair) st.

(** sat.c:64-255. *)
Definition bg_sat_abb_obb
    (abb_min abb_max : vect_t fastf_t)
    (obb_center obb_extent1 obb_extent2 obb_extent3 : vect_t fastf_t) : Z :=
  (* Get the center/extent form of the aligned box. *)
  let C0 := VADD2SCALE abb_max abb_min fhalf in
  let E0 := VSUB2SCALE abb_max abb_min fhalf in
  (* Convenience variables. *)
  let C1 := VMOVE obb_center in
  let E1 := VSET (MAGNITUDE obb_extent1) (MAGNITUDE obb_extent2) (MAGNITUDE obb_extent3) in
  let A1 := arr3 (VUNITIZE (VMOVE obb_extent1)) (VUNITIZE (VMOVE obb_extent2))
                 (VUNITIZE (VMOVE obb_extent3)) in
  let epsilon := VUNITIZE_TOL in
  let cutoff := fone - epsilon in
  let st := dots_init in
  (* Compute the difference of box centers. *)
  let D := VSUB2 C1 C0 in
  (* Test for separation on the axis C0 + t*A0[0]. *)
  let st := abb_row 0 A1 cutoff st in
  let absDot01 := t_absDot01 st in
  let r := fabs D.[0] in
  let r1 := E1.[0] * absDot01 0 0 + E1.[1] * absDot01 0 1 + E1.[2] * absDot01 0 2 in
  let r01 := E0.[0] + r1 in
  if r >? r01 then 0%Z else
  (* Test for separation on the axis C0 + t*A0[1]. *)
  let st := abb_row 1 A1 cutoff st in
  let absDot01 := t_absDot01 st in
  let r := fabs D.[1] in
  let r1 := E1.[0] * absDot01 1 0 + E1.[1] * absDot01 1 1 + E1.[2] * absDot01 1 2 in
  let r01 := E0.[1] + r1 in
  if r >? r01 then 0%Z else
  (* Test for separation on the axis C0 + t*A0[2]. *)
  let st := abb_row 2 A1 cutoff st in
  let dot01 := t_dot01 st in
  let absDot01 := t_absDot01 st in
  let existsParallelPair := t_existsParallelPair st in
  let r := fabs D.[2] in
  let r1 := E1.[0] * absDot01 2 0 + E1.[1] * absDot01 2 1 + E1.[2] * absDot01 2 2 in
  let r01 := E0.[2] + r1 in
  if r >? r01 then 0%Z else
  (* Test for separation on the axis C0 + t*A1[0]. *)
  let r := fabs (VDOT D (A1 0)) in
  let r0 := E0.[0] * absDot01 0 0 + E0.[1] * absDot01 1 0 + E0.[2] * absDot01 2 0 in
  let r01 := r0 + E1.[0] in
  if r >? r01 then 0%Z else
  (* Test for separation on the axis C0 + t*A1[1]. *)
  let r := fabs (VDOT D (A1 1)) in
  let r0 := E0.[0] * absDot01 0 1 + E0.[1] * absDot01 1 1 + E0.[2] * absDot01 2 1 in
  let r01 := r0 + E1.[1] in
  if r >? r01 then 0%Z else
  (* Test for separation on the axis C0 + t*A1[2]. *)
  let r := fabs (VDOT D (A1 2)) in
  let r0 := E0.[0] * absDot01 0 2 + E0.[1] * absDot01 1 2 + E0.[2] * absDot01 2 2 in
  let r01 := r0 + E1.[2] in
  if r >? r01 then 0%Z else
  (* At least one pair of box axes was parallel, so the separation is
     effectively in 2D. The edge-edge axes do not need to be tested. *)
  if negb (Z.eqb existsParallelPair 0) then 1%Z else
  (* Test for separation on the axis C0 + t*A0[0]xA1[0]. *)
  let r := fabs (D.[2] * dot01 1 0 - D.[1] * dot01 2 0) in
  let r0 := E0.[1] * absDot01 2 0 + E0.[2] * absDot01 1 0 in
  let r1 := E1.[1] * absDot01 0 2 + E1.[2] * absDot01 0 1 in
  let r01 := r0 + r1 in
  if r >? r01 then 0%Z else
  (* Test for separation on the axis C0 + t*A0[0]xA1[1]. *)
  let r := fabs (D.[2] * dot01 1 1 - D.[1] * dot01 2 1) in
  let r0 := E0.[1] * absDot01 2 1 + E0.[2] * absDot01 1 1 in
  let r1 := E1.[0] * absDot01 0 2 + E1.[2] * absDot01 0 0 in
  let r01 := r0 + r1 in
  if r >? r01 then 0%Z else
  (* Test for separation on the axis C0 + t*A0[0]xA1[2]. *)
  let r := fabs (D.[2] * dot01 1 2 - D.[1] * dot01 2 2) in
  let r0 := E0.[1] * absDot01 2 2 + E0.[2] * absDot01 1 2 in
  let r1 := E1.[0] * absDot01 0 1 + E1.[1] * absDot01 0 0 in
  let r01 := r0 + r1 in
  if r >? r01 then 0%Z else
  (* Test for separation on the axis C0 + t*A0[1]xA1[0]. *)
  let r := fabs (D.[0] * dot01 2 0 - D.[2] * dot01 0 0) in
  let r0 := E0.[0] * absDot01 2 0 + E0.[2] * absDot01 0 0 in
  let r1 := E1.[1] * absDot01 1 2 + E1.[2] * absDot01 1 1 in
  let r01 := r0 + r1 in
  if r >? r01 then 0%Z else
  (* Test for separation on the axis C0 + t*A0[1]xA1[1]. *)
  let r := fabs (D.[0] * dot01 2 1 - D.[2] * dot01 0 1) in
  let r0 := E0.[0] * absDot01 2 1 + E0.[2] * absDot01 0 1 in
  let r1 := E1.[0] * absDot01 1 2 + E1.[2] * absDot01 1 0 in
  let r01 := r0 + r1 in
  if r >? r01 then 0%Z else
  (* Test for separation on the axis C0 + t*A0[1]xA1[2]. *)
  let r := fabs (D.[0] * dot01 2 2 - D.[2] * dot01 0 2) in
  let r0 := E0.[0] * absDot01 2 2 + E0.[2] * absDot01 0 2 in
  let r1 := E1.[0] * absDot01 1 1 + E1.[1] * absDot01 1 0 in
  let r01 := r0 + r1 in
  if r >? r01 then 0%Z else
  (* Test for separation on the axis C0 + t*A0[2]xA1[0]. *)
  let r := fabs (D.[1] * dot01 0 0 - D.[0] * dot01 1 0) in
  let r0 := E0.[0] * absDot01 1 0 + E0.[1] * absDot01 0 0 in
  let r1 := E1.[1] * absDot01 2 2 + E1.[2] * absDot01 2 1 in
  let r01 := r0 + r1 in
  if r >? r01 then 0%Z else
  (* Test for separation on the axis C0 + t*A0[2]xA1[1]. *)
  let r := fabs (D.[1] * dot01 0 1 - D.[0] * dot01 1 1) in
  let r0 := E0.[0] * absDot01 1 1 + E0.[1] * absDot01 0 1 in
  let r1 := E1.[0] * absDot01 2 2 + E1.[2] * absDot01 2 0 in
  let r01 := r0 + r1 in
  if r >? r01 then 0%Z else
  (* Test for separation on the axis C0 + t*A0[2]xA1[2]. *)
  let r := fabs (D.[1] * dot01 0 2 - D.[0] * dot01 1 2) in
  let r0 := E0.[0] * absDot01 1 2 + E0.[1] * absDot01 0 2 in
  let r1 := E1.[0] * absDot01 2 1 + E1.[1] * absDot01 2 0 in
  let r01 := r0 + r1 in
  if r >? r01 then 0%Z else
  1%Z.

(** sat.c:261-456. *)
Definition bg_sat_obb_obb
    (obb1_center obb1_extent1 obb1_extent2 obb1_extent3 : vect_t fastf_t)
    (obb2_center obb2_extent1 obb2_extent2 obb2_extent3 : vect_t fastf_t) : Z :=
  (* Convenience variables. *)
  let C0 := VMOVE obb1_center in
  let E0 := VSET (MAGNITUDE obb1_extent1) (MAGNITUDE obb1_extent2) (MAGNITUDE obb1_extent3) in
  let C1 := VMOVE obb2_center in
  let E1 := VSET (MAGNITUDE obb2_extent1) (MAGNITUDE obb2_extent2) (MAGNITUDE obb2_extent3) in
  let A0 := arr3 (VUNITIZE (VMOVE obb1_extent1)) (VUNITIZE (VMOVE obb1_extent2))
                 (VUNITIZE (VMOVE obb1_extent3)) in
  let A1 := arr3 (VUNITIZE (VMOVE obb2_extent1)) (VUNITIZE (VMOVE obb2_extent2))
                 (VUNITIZE (VMOVE obb2_extent3)) in
  let epsilon := VUNITIZE_TOL in
  let cutoff := fone - epsilon in
  let st := dots_init in
  (* Compute difference of box centers. *)
  let D := VSUB2 C1 C0 in
  (* Dot(D, A0[i]) *)
  let dotDA0 := mkvect fzero fzero fzero in
  (* Test for separation on the axis C0 + t*A0[0]. *)
  let st := obb_row0 A0 A1 cutoff st in
  let absDot01 := t_absDot01 st in
  let dotDA0 := vset dotDA0 0 (VDOT D (A0 0)) in
  let r := fabs dotDA0.[0] in
  let r1 := E1.[0] * absDot01 0 0 + E1.[1] * absDot01 0 1 + E1.[2] * absDot01 0 2 in
  let r01 := E0.[0] + r1 in
  if r >? r01 then 0%Z else
  (* Test for separation on the axis C0 + t*A0[1]. *)
  let st := obb_row 1 A0 A1 cutoff st in
  let absDot01 := t_absDot01 st in
  let dotDA0 := vset dotDA0 1 (VDOT D (A0 1)) in
  let r := fabs dotDA0.[1] in
  let r1 := E1.[0] * absDot01 1 0 + E1.[1] * absDot01 1 1 + E1.[2] * absDot01 1 2 in
  let r01 := E0.[1] + r1 in
  if r >? r01 then 0%Z else
  (* Test for separation on the axis C0 + t*A0[2]. *)
  let st := obb_row 2 A0 A1 cutoff st in
  let dot01 := t_dot01 st in
  let absDot01 := t_absDot01 st in
  let existsParallelPair := t_existsParallelPair st in
  let dotDA0 := vset dotDA0 2 (VDOT D (A0 2)) in
  let r := fabs dotDA0.[2] in
  let r1 := E1.[0] * absDot01 2 0 + E1.[1] * absDot01 2 1 + E1.[2] * absDot01 2 2 in
  let r01 := E0.[2] + r1 in
  if r >? r01 then 0%Z else
  (* Test for separation on the axis C0 + t*A1[0]. *)
  let r := fabs (VDOT D (A1 0)) in
  let r0 := E0.[0] * absDot01 0 0 + E0.[1] * absDot01 1 0 + E0.[2] * absDot01 2 0 in
  let r01 := r0 + E1.[0] in
  if r >? r01 then 0%Z else
  (* Test for separation on the axis C0 + t*A1[1]. *)
  let r := fabs (VDOT D (A1 1)) in
  let r0 := E0.[0] * absDot01 0 1 + E0.[1] * absDot01 1 1 + E0.[2] * absDot01 2 1 in
  let r01 := r0 + E1.[1] in
  if r >? r01 then 0%Z else
  (* Test for separation on the axis C0 + t*A1[2]. *)
  let r := fabs (VDOT D (A1 2)) in
  let r0 := E0.[0] * absDot01 0 2 + E0.[1] * absDot01 1 2 + E0.[2] * absDot01 2 2 in
  let r01 := r0 + E1.[2] in
  if r >? r01 then 0%Z else
  (* At least one pair of box axes was parallel, so the separation is
     effectively in 2D. The edge-edge axes do not need to be tested. *)
  if negb (Z.eqb existsParallelPair 0) then 1%Z else
  (* Test for separation on the axis C0 + t*A0[0]xA1[0]. *)
  let r := fabs (dotDA0.[2] * dot01 1 0 - dotDA0.[1] * dot01 2 0) in
  let r0 := E0.[1] * absDot01 2 0 + E0.[2] * absDot01 1 0 in
  let r1 := E1.[1] * absDot01 0 2 + E1.[2] * absDot01 0 1 in
  let r01 := r0 + r1 in
  if r >? r01 then 0%Z else
  (* Test for separation on the axis C0 + t*A0[0]xA1[1]. *)
  let r := fabs (dotDA0.[2] * dot01 1 1 - dotDA0.[1] * dot01 2 1) in
  let r0 := E0.[1] * absDot01 2 1 + E0.[2] * absDot01 1 1 in
  let r1 := E1.[0] * absDot01 0 2 + E1.[2] * absDot01 0 0 in
  let r01 := r0 + r1 in
  if r >? r01 then 0%Z else
  (* Test for separation on the axis C0 + t*A0[0]xA1[2]. *)
  let r := fabs (dotDA0.[2] * dot01 1 2 - dotDA0.[1] * dot01 2 2) in
  let r0 := E0.[1] * absDot01 2 2 + E0.[2] * absDot01 1 2 in
  let r1 := E1.[0] * absDot01 0 1 + E1.[1] * absDot01 0 0 in
  let r01 := r0 + r1 in
  if r >? r01 then 0%Z else
  (* Test for separation on the axis C0 + t*A0[1]xA1[0]. *)
  let r := fabs (dotDA0.[0] * dot01 2 0 - dotDA0.[2] * dot01 0 0) in
  let r0 := E0.[0] * absDot01 2 0 + E0.[2] * absDot01 0 0 in
  let r1 := E1.[1] * absDot01 1 2 + E1.[2] * absDot01 1 1 in
  let r01 := r0 + r1 in
  if r >? r01 then 0%Z else
  (* Test for separation on the axis C0 + t*A0[1]xA1[1]. *)
  let r := fabs (dotDA0.[0] * dot01 2 1 - dotDA0.[2] * dot01 0 1) in
  let r0 := E0.[0] * absDot01 2 1 + E0.[2] * absDot01 0 1 in
  let r1 := E1.[0] * absDot01 1 2 + E1.[2] * absDot01 1 0 in
  let r01 := r0 + r1 in
  if r >? r01 then 0%Z else
  (* Test for separation on the axis C0 + t*A0[1]xA1[2]. *)
  let r := fabs (dotDA0.[0] * dot01 2 2 - dotDA0.[2] * dot01 0 2) in
  let r0 := E0.[0] * absDot01 2 2 + E0.[2] * absDot01 0 2 in
  let r1 := E1.[0] * absDot01 1 1 + E1.[1] * absDot01 1 0 in
  let r01 := r0 + r1 in
  if r >? r01 then 0%Z else
  (* Test for separation on the axis C0 + t*A0[2]xA1[0]. *)
  let r := fabs (dotDA0.[1] * dot01 0 0 - dotDA0.[0] * dot01 1 0) in
  let r0 := E0.[0] * absDot01 1 0 + E0.[1] * absDot01 0 0 in
  let r1 := E1.[1] * absDot01 2 2 + E1.[2] * absDot01 2 1 in
  let r01 := r0 + r1 in
  if r >? r01 then 0%Z else
  (* Test for separation on the axis C0 + t*A0[2]xA1[1]. *)
  let r := fabs (dotDA0.[1] * dot01 0 1 - dotDA0.[0] * dot01 1 1) in
  let r0 := E0.[0] * absDot01 1 1 + E0.[1] * absDot01 0 1 in
  let r1 := E1.[0] * absDot01 2 2 + E1.[2] * absDot01 2 0 in
  let r01 := r0 + r1 in
  if r >? r01 then 0%Z else
  (* Test for separation on the axis C0 + t*A0[2]xA1[2]. *)
  let r := fabs (dotDA0.[1] * dot01 0 2 - dotDA0.[0] * dot01 1 2) in
  let r0 := E0.[0] * absDot01 1 2 + E0.[1] * absDot01 0 2 in
  let r1 := E1.[0] * absDot01 2 1 + E1.[1] * absDot01 2 0 in
  let r01 := r0 + r1 in
  if r >? r01 then 0%Z else
  1%Z.

(** ** The candidate axes, listed *)

(** The six face-normal tests as pairs (r, r01) in the order of the code.
    [P] holds the projections of [D] on the axes of box 0: [D] itself in
    bg_sat_abb_obb (sat.c:116, 129, 145), [dotDA0] in bg_sat_obb_obb
    (sat.c:321, 335, 349); the rest is the same text in both functions. *)
Definition face_axes (P D E0 E1 : vect_t fastf_t) (A1 : nat -> vect_t fastf_t)
    (absDot01 : table fastf_t) : list (fastf_t * fastf_t) :=
  (* Test for separation on the axis C0 + t*A0[0]. *)
  let r := fabs P.[0] in
  let r1 := E1.[0] * absDot01 0 0 + E1.[1] * absDot01 0 1 + E1.[2] * absDot01 0 2 in
  let r01 := E0.[0] + r1 in
  (r, r01) ::
  (* Test for separation on the axis C0 + t*A0[1]. *)
  let r := fabs P.[1] in
  let r1 := E1.[0] * absDot01 1 0 + E1.[1] * absDot01 1 1 + E1.[2] * absDot01 1 2 in
  let r01 := E0.[1] + r1 in
  (r, r01) ::
  (* Test for separation on the axis C0 + t*A0[2]. *)
  let r := fabs P.[2] in
  let r1 := E1.[0] * absDot01 2 0 + E1.[1] * absDot01 2 1 + E1.[2] * absDot01 2 2 in
  let r01 := E0.[2] + r1 in
  (r, r01) ::
  (* Test for separation on the axis C0 + t*A1[0]. *)
  let r := fabs (VDOT D (A1 0)) in
  let r0 := E0.[0] * absDot01 0 0 + E0.[1] * absDot01 1 0 + E0.[2] * absDot01 2 0 in
  let r01 := r0 + E1.[0] in
  (r, r01) ::
  (* Test for separation on the axis C0 + t*A1[1]. *)
  let r := fabs (VDOT D (A1 1)) in
  let r0 := E0.[0] * absDot01 0 1 + E0.[1] * absDot01 1 1 + E0.[2] * absDot01 2 1 in
  let r01 := r0 + E1.[1] in
  (r, r01) ::
  (* Test for separation on the axis C0 + t*A1[2]. *)
  let r := fabs (VDOT D (A1 2)) in
  let r0 := E0.[0] * absDot01 0 2 + E0.[1] * absDot01 1 2 + E0.[2] * absDot01 2 2 in
  let r01 := r0 + E1.[2] in
  (r, r01) ::
  nil.

(** The nine edge-cross-product tests (sat.c:180-250 with [P] = [D],
    sat.c:381-451 with [P] = [dotDA0]). *)
Definition edge_axes (P E0 E1 : vect_t fastf_t) (dot01 absDot01 : table fastf_t)
    : list (fastf_t * fastf_t) :=
  (* Test for separation on the axis C0 + t*A0[0]xA1[0]. *)
  let r := fabs (P.[2] * dot01 1 0 - P.[1] * dot01 2 0) in
  let r0 := E0.[1] * absDot01 2 0 + E0.[2] * absDot01 1 0 in
  let r1 := E1.[1] * absDot01 0 2 + E1.[2] * absDot01 0 1 in
  let r01 := r0 + r1 in
  (r, r01) ::
  (* Test for separation on the axis C0 + t*A0[0]xA1[1]. *)
  let r := fabs (P.[2] * dot01 1 1 - P.[1] * dot01 2 1) in
  let r0 := E0.[1] * absDot01 2 1 + E0.[2] * absDot01 1 1 in
  let r1 := E1.[0] * absDot01 0 2 + E1.[2] * absDot01 0 0 in
  let r01 := r0 + r1 in
  (r, r01) ::
  (* Test for separation on the axis C0 + t*A0[0]xA1[2]. *)
  let r := fabs (P.[2] * dot01 1 2 - P.[1] * dot01 2 2) in
  let r0 := E0.[1] * absDot01 2 2 + E0.[2] * absDot01 1 2 in
  let r1 := E1.[0] * absDot01 0 1 + E1.[1] * absDot01 0 0 in
  let r01 := r0 + r1 in
  (r, r01) ::
  (* Test for separation on the axis C0 + t*A0[1]xA1[0]. *)
  let r := fabs (P.[0] * dot01 2 0 - P.[2] * dot01 0 0) in
  let r0 := E0.[0] * absDot01 2 0 + E0.[2] * absDot01 0 0 in
  let r1 := E1.[1] * absDot01 1 2 + E1.[2] * absDot01 1 1 in
  let r01 := r0 + r1 in
  (r, r01) ::
  (* Test for separation on the axis C0 + t*A0[1]xA1[1]. *)
  let r := fabs (P.[0] * dot01 2 1 - P.[2] * dot01 0 1) in
  let r0 := E0.[0] * absDot01 2 1 + E0.[2] * absDot01 0 1 in
  let r1 := E1.[0] * absDot01 1 2 + E1.[2] * absDot01 1 0 in
  let r01 := r0 + r1 in
  (r, r01) ::
  (* Test for separation on the axis C0 + t*A0[1]xA1[2]. *)
  let r := fabs (P.[0] * dot01 2 2 - P.[2] * dot01 0 2) in
  let r0 := E0.[0] * absDot01 2 2 + E0.[2] * absDot01 0 2 in
  let r1 := E1.[0] * absDot01 1 1 + E1.[1] * absDot01 1 0 in
  let r01 := r0 + r1 in
  (r, r01) ::
  (* Test for separation on the axis C0 + t*A0[2]xA1[0]. *)
  let r := fabs (P.[1] * dot01 0 0 - P.[0] * dot01 1 0) in
  let r0 := E0.[0] * absDot01 1 0 + E0.[1] * absDot01 0 0 in
  let r1 := E1.[1] * absDot01 2 2 + E1.[2] * absDot01 2 1 in
  let r01 := r0 + r1 in
  (r, r01) ::
  (* Test for separation on the axis C0 + t*A0[2]xA1[1]. *)
  let r := fabs (P.[1] * dot01 0 1 - P.[0] * dot01 1 1) in
  let r0 := E0.[0] * absDot01 1 1 + E0.[1] * absDot01 0 1 in
  let r1 := E1.[0] * absDot01 2 2 + E1.[2] * absDot01 2 0 in
  let r01 := r0 + r1 in
  (r, r01) ::
  (* Test for separation on the axis C0 + t*A0[2]xA1[2]. *)
  let r := fabs (P.[1] * dot01 0 2 - P.[0] * dot01 1 2) in
  let r0 := E0.[0] * absDot01 1 2 + E0.[1] * absDot01 0 2 in
  let r1 := E1.[0] * absDot01 2 1 + E1.[1] * absDot01 2 0 in
  let r01 := r0 + r1 in
  (r, r01) ::
  nil.

(** [if (r > r01) return 0;] *)
Definition separates (ax : fastf_t * fastf_t) : bool := fst ax >? snd ax.

(** A run of [if (r > r01) return 0;] tests, then [k]. *)
Fixpoint run_tests (axes : list (fastf_t * fastf_t)) (k : Z) : Z :=
  match axes with
  | nil => k
  | ax :: rest => if separates ax then 0%Z else run_tests rest k
  end.

(** The control flow both functions share: face tests, the parallel-pair
    exit, edge tests. *)
Definition sat_verdict (faces : list (fastf_t * fastf_t)) (existsParallelPair : Z)
    (edges : list (fastf_t * fastf_t)) : Z :=
  run_tests faces
    (if negb (Z.eqb existsParallelPair 0) then 1%Z else run_tests edges 1%Z).

(** The derived forms of the two kinds of box. *)
Definition abb_center (abb_min abb_max : vect_t fastf_t) : vect_t fastf_t :=
  VADD2SCALE abb_max abb_min fhalf.

Definition abb_halfext (abb_min abb_max : vect_t fastf_t) : vect_t fastf_t :=
  VSUB2SCALE abb_max abb_min fhalf.

Definition obb_halfext (e1 e2 e3 : vect_t fastf_t) : vect_t fastf_t :=
  VSET (MAGNITUDE e1) (MAGNITUDE e2) (MAGNITUDE e3).

Definition obb_axes (e1 e2 e3 : vect_t fastf_t) : nat -> vect_t fastf_t :=
  arr3 (VUNITIZE e1) (VUNITIZE e2) (VUNITIZE e3).

Definition sat_cutoff : fastf_t := fone - VUNITIZE_TOL.

(** The locals after the three loops of bg_sat_abb_obb. *)
Definition abb_dots (A1 : nat -> vect_t fastf_t) : dots :=
  abb_row 2 A1 sat_cutoff (abb_row 1 A1 sat_cutoff (abb_row 0 A1 sat_cutoff dots_init)).

(** The locals after the three loops of bg_sat_obb_obb. *)
Definition obb_dots (A0 A1 : nat -> vect_t fastf_t) : dots :=
  obb_row 2 A0 A1 sat_cutoff (obb_row 1 A0 A1 sat_cutoff (obb_row0 A0 A1 sat_cutoff dots_init)).

(** [dotDA0] once its three components are assigned. *)
Definition obb_dotDA0 (D : vect_t fastf_t) (A0 : nat -> vect_t fastf_t) : vect_t fastf_t :=
  mkvect (VDOT D (A0 0)) (VDOT D (A0 1)) (VDOT D (A0 2)).

End Sat.


Section Candidates.
Context {fastf_t : Type} {ops : fastf_ops fastf_t}.
Variable VUNITIZE_TOL : fastf_t.

(** The fifteen (r, r01) pairs bg_sat_abb_obb may compare, in order. *)
Definition abb_obb_axes (abb_min abb_max c1 e1 e2 e3 : vect_t fastf_t)
    : list (fastf_t * fastf_t) :=
  let D := VSUB2 c1 (abb_center abb_min abb_max) in
  let E0 := abb_halfext abb_min abb_max in
  let E1 := obb_halfext e1 e2 e3 in
  let A1 := obb_axes e1 e2 e3 in
  let st := abb_dots VUNITIZE_TOL A1 in
  face_axes D D E0 E1 A1 (t_absDot01 st)
  ++ edge_axes D E0 E1 (t_dot01 st) (t_absDot01 st).

(** The fifteen (r, r01) pairs bg_sat_obb_obb may compare, in order. *)
Definition obb_obb_axes (c0 f1 f2 f3 c1 e1 e2 e3 : vect_t fastf_t)
    : list (fastf_t * fastf_t) :=
  let D := VSUB2 c1 c0 in
  let E0 := obb_halfext f1 f2 f3 in
  let E1 := obb_halfext e1 e2 e3 in
  let A0 := obb_axes f1 f2 f3 in
  let A1 := obb_axes e1 e2 e3 in
  let st := obb_dots VUNITIZE_TOL A0 A1 in
  let P := obb_dotDA0 D A0 in
  face_axes P D E0 E1 A1 (t_absDot01 st)
  ++ edge_axes P E0 E1 (t_dot01 st) (t_absDot01 st).

End Candidates.

(** ** The two scalar types *)

Definition Rgtb (a b : R) : bool := if Rgt_dec a b then true else false.
Definition Rgeb (a b : R) : bool := if Rge_dec a b then true else false.

(** Exact real arithmetic. *)
#[export] Instance fastf_R : fastf_ops R := {|
  fzero := 0%R; fone := 1%R; fhalf := (1 / 2)%R; fint := IZR;
  fadd := Rplus; fsub := Rminus; fmul := Rmult; fdiv := Rdiv;
  fsqrt := sqrt; fabs := Rabs;
  fgt := Rgtb; fge := Rgeb
|}.

(** An integer as a double (exact below 2^53). *)
Definition double_of_Z (z : Z) : PrimFloat.float :=
  match z with
  | Z0 => 0%float
  | Zpos p => PrimFloat.of_uint63 (Uint63.of_Z (Zpos p))
  | Zneg p => PrimFloat.opp (PrimFloat.of_uint63 (Uint63.of_Z (Zpos p)))
  end.

(** IEEE binary64, the [double] behind [fastf_t]: the operators of C on
    doubles ([a > b] is [b < a], false on a NaN). *)
#[export] Instance fastf_double : fastf_ops PrimFloat.float := {|
  fzero := 0%float; fone := 1%float; fhalf := 0.5%float; fint := double_of_Z;
  fadd := PrimFloat.add; fsub := PrimFloat.sub; fmul := PrimFloat.mul;
  fdiv := PrimFloat.div;
  fsqrt := PrimFloat.sqrt; fabs := PrimFloat.abs;
  fgt := fun a b => PrimFloat.ltb b a; fge := fun a b => PrimFloat.leb b a
|}.

(** A sample value of the tolerance, 1e-15, as a real and as the nearest
    double. *)
Definition tol_R : R := (1 / 10 ^ 15)%R.
Definition tol_double : PrimFloat.float := 0x1.203af9ee75616p-50%float.

(** A vector with integer coordinates, in either scalar type. *)
Definition ivect {fastf_t : Type} {ops : fastf_ops fastf_t} (x y z : Z) : vect_t fastf_t :=
  mkvect (fint x) (fint y) (fint z).

(** Two boxes with integer coordinates whose axes reach the cutoff on
    binary64.  With m = 45000000, (2m, m^2 - 1, m^2 + 1) is a Pythagorean
    triple, so [near_e1] has magnitude h = m^2 + 1 = 2025000000000001 and its
    unit vector has y component 1 - 2/h, which binary64 rounds to the double
    nearest 1 - 1e-15.  [near_e2] = 3u + 4w and [near_e3] = 4u - 3w for
    u = (-(m^2 - 1), 2m, 0) and w = (0, 0, h), of magnitude 5h and orthogonal
    to [near_e1] and to each other.  The aligned box has half-extents
    (h, h, 2h); the oriented box is centred at (-8h, 2h, 0). *)
Section NearParallel.
Context {fastf_t : Type} {ops : fastf_ops fastf_t}.

Definition near_e1 : vect_t fastf_t := ivect 90000000 2024999999999999 0.

Definition near_e2 : vect_t fastf_t :=
  ivect (-6074999999999997) 270000000 8100000000000004.

Definition near_e3 : vect_t fastf_t :=
  ivect (-8099999999999996) 360000000 (-6075000000000003).

Definition near_center : vect_t fastf_t :=
  ivect (-16200000000000008) 4050000000000002 0.

Definition near_min : vect_t fastf_t :=
  ivect (-2025000000000001) (-2025000000000001) (-4050000000000002).

Definition near_max : vect_t fastf_t :=
  ivect 2025000000000001 2025000000000001 4050000000000002.

(** The aligned box as an oriented box. *)
Definition near_f1 : vect_t fastf_t := ivect 2025000000000001 0 0.
Definition near_f2 : vect_t fastf_t := ivect 0 2025000000000001 0.
Definition near_f3 : vect_t fastf_t := ivect 0 0 4050000000000002.

End NearParallel.

(** ** The aligned box as an oriented box, and translation *)

Section Reexpressed.
Context {fastf_t : Type} {ops : fastf_ops fastf_t}.
Local Open Scope fastf_scope.

(** The aligned box re-expressed as an oriented box: centre (min+max)/2,
    extent vectors the world basis scaled by (max-min)/2. *)
Definition abb_obb_center (mn mx : vect_t fastf_t) : vect_t fastf_t :=
  mkvect ((vX mn + vX mx) * fhalf) ((vY mn + vY mx) * fhalf) ((vZ mn + vZ mx) * fhalf).

Definition abb_obb_extent1 (mn mx : vect_t fastf_t) : vect_t fastf_t :=
  mkvect ((vX mx - vX mn) * fhalf) fzero fzero.

Definition abb_obb_extent2 (mn mx : vect_t fastf_t) : vect_t fastf_t :=
  mkvect fzero ((vY mx - vY mn) * fhalf) fzero.

Definition abb_obb_extent3 (mn mx : vect_t fastf_t) : vect_t fastf_t :=
  mkvect fzero fzero ((vZ mx - vZ mn) * fhalf).


End Reexpressed.

(** ** Boxes as point sets (over the reals) *)

Local Open Scope R_scope.

Definition vadd (a b : vect_t R) : vect_t R :=
  mkvect (vX a + vX b) (vY a + vY b) (vZ a + vZ b).

Definition vscale (s : R) (a : vect_t R) : vect_t R :=
  mkvect (s * vX a) (s * vY a) (s * vZ a).

(** The oriented box with centre [c] and extent vectors [e1 e2 e3]: the
    points [c + s1 e1 + s2 e2 + s3 e3] with every [|s_k| <= 1]. *)
Definition in_obb (c e1 e2 e3 p : vect_t R) : Prop :=
  exists s1 s2 s3 : R,
    -1 <= s1 <= 1 /\ -1 <= s2 <= 1 /\ -1 <= s3 <= 1 /\
    p = vadd c (vadd (vscale s1 e1) (vadd (vscale s2 e2) (vscale s3 e3))).

(** The aligned box [mn .. mx]. *)
Definition in_abb (mn mx p : vect_t R) : Prop :=
  vX mn <= vX p <= vX mx /\ vY mn <= vY p <= vY mx /\ vZ mn <= vZ p <= vZ mx.

(** A well-formed oriented box: extent vectors mutually orthogonal and
    non-zero. *)
Definition valid_obb (e1 e2 e3 : vect_t R) : Prop :=
  VDOT e1 e2 = 0 /\ VDOT e1 e3 = 0 /\ VDOT e2 e3 = 0 /\
  MAGSQ e1 <> 0 /\ MAGSQ e2 <> 0 /\ MAGSQ e3 <> 0.

(** The cross product, and orthonormal frames. *)
Definition vcross (a b : vect_t R) : vect_t R :=
  mkvect (vY a * vZ b - vZ a * vY b) (vZ a * vX b - vX a * vZ b)
         (vX a * vY b - vY a * vX b).

Definition orthonormal (a b c : vect_t R) : Prop :=
  VDOT a a = 1 /\ VDOT b b = 1 /\ VDOT c c = 1 /\
  VDOT a b = 0 /\ VDOT a c = 0 /\ VDOT b c = 0.


Definition abb_lt (mn mx : vect_t R) : Prop :=
  vX mn < vX mx /\ vY mn < vY mx /\ vZ mn < vZ mx.

(** 3x3 matrices by rows, their action on a vector, and rotations
    (orthogonal, determinant 1). *)
Record mat3 : Type := mkmat3 { row1 : vect_t R; row2 : vect_t R; row3 : vect_t R }.

Definition mat_apply (M : mat3) (v : vect_t R) : vect_t R :=
  mkvect (VDOT (row1 M) v) (VDOT (row2 M) v) (VDOT (row3 M) v).

Definition mat_det (M : mat3) : R :=
  vX (row1 M) * (vY (row2 M) * vZ (row3 M) - vZ (row2 M) * vY (row3 M))
  - vY (row1 M) * (vX (row2 M) * vZ (row3 M) - vZ (row2 M) * vX (row3 M))
  + vZ (row1 M) * (vX (row2 M) * vY (row3 M) - vY (row2 M) * vX (row3 M)).

Definition is_rotation (M : mat3) : Prop :=
  VDOT (row1 M) (row1 M) = 1 /\ VDOT (row2 M) (row2 M) = 1 /\
  VDOT (row3 M) (row3 M) = 1 /\
  VDOT (row1 M) (row2 M) = 0 /\ VDOT (row1 M) (row3 M) = 0 /\
  VDOT (row2 M) (row3 M) = 0 /\
  mat_det M = 1.

(** The quarter turn about the z axis: (x, y, z) to (-y, x, z). *)
Definition rot_z90 : mat3 :=
  mkmat3 (mkvect 0 (-1) 0) (mkvect 1 0 0) (mkvect 0 0 1).

(** A unit vector whose y component is exactly the cutoff [1 - 1e-15], and
    an orthogonal frame built on it: the first axis is tilted off the world
    y axis by the angle whose cosine is the cutoff. *)
Definition c_cut : R := 1 - tol_R.
Definition s_cut : R := sqrt (1 - c_cut * c_cut).
Definition tilt_e1 : vect_t R := mkvect (10 * s_cut) (10 * c_cut) 0.
Definition tilt_e2 : vect_t R := mkvect (-3 * c_cut) (3 * s_cut) 4.
Definition tilt_e3 : vect_t R := mkvect (-4 * c_cut) (4 * s_cut) (-3).

(** ** Tables *)



(** ** binary64 values up to the sign of zero *)

(** Equality of two binary64 values up to the sign of zero. *)
Definition sf_eqz (s t : SpecFloat.spec_float) : Prop :=
  match s, t with
  | SpecFloat.S754_zero _, SpecFloat.S754_zero _ => True
  | _, _ => s = t
  end.

Definition feqz (x y : PrimFloat.float) : Prop :=
  sf_eqz (FloatOps.Prim2SF x) (FloatOps.Prim2SF y).

(** [x] is [- y] up to the sign of zero. *)
Definition fflip (x y : PrimFloat.float) : Prop := feqz x (PrimFloat.opp y).

(** A zero of either sign, or a NaN. *)
Definition sf_zero_or_nan (s : SpecFloat.spec_float) : Prop :=
  match s with
  | SpecFloat.S754_zero _ | SpecFloat.S754_nan => True
  | _ => False
  end.

Definition zero_or_nan (x : PrimFloat.float) : Prop := sf_zero_or_nan (FloatOps.Prim2SF x).

(** Not negative: a NaN, a zero of either sign, or positive. *)
Definition sf_not_negative (s : SpecFloat.spec_float) : Prop :=
  match s with
  | SpecFloat.S754_infinity true | SpecFloat.S754_finite true _ _ => False
  | _ => True
  end.

(** [x < 0] is false. *)
Definition not_negative (x : PrimFloat.float) : Prop :=
  PrimFloat.ltb x PrimFloat.zero = false.

(** The opposite vector, on binary64. *)
Definition vneg (v : vect_t PrimFloat.float) : vect_t PrimFloat.float :=
  mkvect (PrimFloat.opp (vX v)) (PrimFloat.opp (vY v)) (PrimFloat.opp (vZ v)).

(** ** Normal form of the two functions *)

Section NormalForm.
Context {fastf_t : Type} {ops : fastf_ops fastf_t}.
Variable eps : fastf_t.

Lemma bg_sat_abb_obb_verdict (mn mx c1 e1 e2 e3 : vect_t fastf_t) :
  bg_sat_abb_obb eps mn mx c1 e1 e2 e3 =
  let D := VSUB2 c1 (abb_center mn mx) in
  let st := abb_dots eps (obb_axes e1 e2 e3) in
  sat_verdict
    (face_axes D D (abb_halfext mn mx) (obb_halfext e1 e2 e3) (obb_axes e1 e2 e3) (t_absDot01 st))
    (t_existsParallelPair st)
    (edge_axes D (abb_halfext mn mx) (obb_halfext e1 e2 e3) (t_dot01 st) (t_absDot01 st)).
Proof. reflexivity. Qed.

Lemma bg_sat_obb_obb_verdict (c0 f1 f2 f3 c1 e1 e2 e3 : vect_t fastf_t) :
  bg_sat_obb_obb eps c0 f1 f2 f3 c1 e1 e2 e3 =
  let D := VSUB2 c1 c0 in
  let A0 := obb_axes f1 f2 f3 in
  let st := obb_dots eps A0 (obb_axes e1 e2 e3) in
  let P := obb_dotDA0 D A0 in
  sat_verdict
    (face_axes P D (obb_halfext f1 f2 f3) (obb_halfext e1 e2 e3) (obb_axes e1 e2 e3) (t_absDot01 st))
    (t_existsParallelPair st)
    (edge_axes P (obb_halfext f1 f2 f3) (obb_halfext e1 e2 e3) (t_dot01 st) (t_absDot01 st)).
Proof. reflexivity. Qed.

End NormalForm.

(** ** Facts on the shared control flow *)

Section Verdict.
Context {fastf_t : Type} {ops : fastf_ops fastf_t}.

Lemma run_tests_0_or_1 (axes : list (fastf_t * fastf_t)) (k : Z) :
  k = 0%Z \/ k = 1%Z -> run_tests axes k = 0%Z \/ run_tests axes k = 1%Z.
Proof.
  intros Hk. induction axes as [|ax rest IH]; cbn.
  - exact Hk.
  - destruct (separates ax); [now left | exact IH].
Qed.

Lemma run_tests_none (axes : list (fastf_t * fastf_t)) (k : Z) :
  (forall ax, In ax axes -> separates ax = false) -> run_tests axes k = k.
Proof.
  induction axes as [|ax rest IH]; cbn; intros H.
  - reflexivity.
  - rewrite (H ax) by now left. apply IH. intros ax' Hin. apply H. now right.
Qed.

Lemma run_tests_some (axes : list (fastf_t * fastf_t)) (k : Z) :
  run_tests axes k = 0%Z ->
  (exists ax, In ax axes /\ separates ax = true) \/ k = 0%Z.
Proof.
  induction axes as [|ax rest IH]; cbn; intros H.
  - now right.
  - destruct (separates ax) eqn:Hs.
    + left. exists ax. split; [now left | exact Hs].
    + destruct (IH H) as [(ax' & Hin & Hs') | Hk]; [left | now right].
      exists ax'. split; [now right | exact Hs'].
Qed.

Lemma sat_verdict_0_or_1 (faces edges : list (fastf_t * fastf_t)) (flag : Z) :
  sat_verdict faces flag edges = 0%Z \/ sat_verdict faces flag edges = 1%Z.
Proof.
  unfold sat_verdict. apply run_tests_0_or_1.
  destruct (negb (flag =? 0)%Z); [now right |].
  apply run_tests_0_or_1. now right.
Qed.

Lemma sat_verdict_0_separates (faces edges : list (fastf_t * fastf_t)) (flag : Z) :
  sat_verdict faces flag edges = 0%Z ->
  exists ax, In ax (faces ++ edges) /\ separates ax = true.
Proof.
  unfold sat_verdict. intros H.
  destruct (run_tests_some _ _ H) as [(ax & Hin & Hs) | Hk].
  - exists ax. split; [apply in_or_app; now left | exact Hs].
  - destruct (negb (flag =? 0)%Z); [discriminate |].
    destruct (run_tests_some _ _ Hk) as [(ax & Hin & Hs) | Hk']; [| discriminate].
    exists ax. split; [apply in_or_app; now right | exact Hs].
Qed.

Lemma sat_verdict_no_separation (faces edges : list (fastf_t * fastf_t)) (flag : Z) :
  (forall ax, In ax (faces ++ edges) -> separates ax = false) ->
  sat_verdict faces flag edges = 1%Z.
Proof.
  intros H. unfold sat_verdict.
  rewrite run_tests_none by (intros; apply H, in_or_app; now left).
  destruct (negb (flag =? 0)%Z); [reflexivity |].
  apply run_tests_none. intros; apply H, in_or_app; now right.
Qed.

Lemma bg_sat_abb_obb_axes (eps : fastf_t) (mn mx c1 e1 e2 e3 : vect_t fastf_t) :
  bg_sat_abb_obb eps mn mx c1 e1 e2 e3 = 0%Z ->
  exists ax, In ax (abb_obb_axes eps mn mx c1 e1 e2 e3) /\ separates ax = true.
Proof. rewrite bg_sat_abb_obb_verdict. apply sat_verdict_0_separates. Qed.

Lemma bg_sat_obb_obb_axes (eps : fastf_t) (c0 f1 f2 f3 c1 e1 e2 e3 : vect_t fastf_t) :
  bg_sat_obb_obb eps c0 f1 f2 f3 c1 e1 e2 e3 = 0%Z ->
  exists ax, In ax (obb_obb_axes eps c0 f1 f2 f3 c1 e1 e2 e3) /\ separates ax = true.
Proof. rewrite bg_sat_obb_obb_verdict. apply sat_verdict_0_separates. Qed.

End Verdict.

(** ** Evaluation over the reals *)

Lemma Rgtb_true_intro (a b : R) : a > b -> Rgtb a b = true.
Proof. unfold Rgtb. destruct (Rgt_dec a b); intros; [reflexivity | contradiction]. Qed.

Lemma Rgtb_false_intro (a b : R) : a <= b -> Rgtb a b = false.
Proof. unfold Rgtb. destruct (Rgt_dec a b); intros; [lra | reflexivity]. Qed.

Lemma Rgeb_true_intro (a b : R) : a >= b -> Rgeb a b = true.
Proof. unfold Rgeb. destruct (Rge_dec a b); intros; [reflexivity | contradiction]. Qed.

Lemma Rgeb_false_intro (a b : R) : a < b -> Rgeb a b = false.
Proof. unfold Rgeb. destruct (Rge_dec a b); intros; [lra | reflexivity]. Qed.

Lemma Rgtb_true_iff (a b : R) : Rgtb a b = true <-> a > b.
Proof.
  split; [| apply Rgtb_true_intro].
  unfold Rgtb. destruct (Rgt_dec a b); [trivial | discriminate].
Qed.

Lemma MAGNITUDE_R (v : vect_t R) (m : R) :
  0 <= m -> vX v * vX v + vY v * vY v + vZ v * vZ v = m * m -> MAGNITUDE v = m.
Proof.
  intros Hm H. unfold MAGNITUDE, MAGSQ. cbn. rewrite H. apply sqrt_square, Hm.
Qed.

(** Unfold the model down to scalar operations, leaving [MAGNITUDE] folded. *)
Ltac sat_unfold :=
  cbv beta iota zeta delta
    [sat_verdict face_axes edge_axes run_tests separates fst snd
     abb_obb_axes obb_obb_axes app existsb firstn
     abb_dots abb_row obb_dots obb_row obb_row0 for3 fold_left seq tset
     t_dot01 t_absDot01 t_existsParallelPair dots_init Nat.eqb andb
     vidx vX vY vZ obb_axes obb_halfext abb_center abb_halfext arr3
     VUNITIZE VSET VSUB2 VADD2SCALE VSUB2SCALE obb_dotDA0 VDOT sat_cutoff
     ivect].

(** Then the scalar operations as operations on R (the instance stays folded
    where it is an argument of [MAGNITUDE]). *)
Ltac sat_ops :=
  change (@fadd R fastf_R) with Rplus;
  change (@fsub R fastf_R) with Rminus;
  change (@fmul R fastf_R) with Rmult;
  change (@fdiv R fastf_R) with Rdiv;
  change (@fabs R fastf_R) with Rabs;
  change (@fsqrt R fastf_R) with sqrt;
  change (@fgt R fastf_R) with Rgtb;
  change (@fge R fastf_R) with Rgeb;
  change (@fzero R fastf_R) with 0;
  change (@fone R fastf_R) with 1;
  change (@fhalf R fastf_R) with (1 / 2);
  change (@fint R fastf_R) with IZR;
  cbv beta.

(** [MAGNITUDE (x, y, z) = m] for integer coordinates. *)
Ltac mag x y z m :=
  rewrite !(MAGNITUDE_R (@mkvect R (@fint R fastf_R x) (@fint R fastf_R y) (@fint R fastf_R z)) m)
    by (cbv [vX vY vZ fint fastf_R]; lra).

Ltac rabs_eval :=
  repeat match goal with
  | |- context [Rabs ?e] =>
      first [ rewrite (Rabs_pos_eq e) by lra | rewrite (Rabs_left1 e) by lra ]
  end.

(** Decide the comparison at the head of the goal; at the parallel-pair
    exit, follow both branches. *)
Ltac sat_step :=
  lazymatch goal with
  | |- (if Rgtb ?a ?b then _ else _) = _ =>
      first [ rewrite (Rgtb_true_intro a b) by lra
            | rewrite (Rgtb_false_intro a b) by lra ]; cbv iota
  | |- (if negb ?f then _ else _) = _ => destruct (negb f)
  end.

Ltac sat_eval := sat_ops; rabs_eval; repeat sat_step; try reflexivity.

Ltac mag_units :=
  try mag 1%Z 0%Z 0%Z 1; try mag 0%Z 1%Z 0%Z 1; try mag 0%Z 0%Z 1%Z 1.

(** For a closed input: decide every comparison, then compute. *)
Ltac cmp_eval :=
  repeat match goal with
  | |- context [Rgeb ?a ?b] =>
      first [ rewrite (Rgeb_true_intro a b) by lra
            | rewrite (Rgeb_false_intro a b) by lra ]
  | |- context [Rgtb ?a ?b] =>
      first [ rewrite (Rgtb_true_intro a b) by lra
            | rewrite (Rgtb_false_intro a b) by lra ]
  end.

Ltac sat_eval_closed := sat_ops; rabs_eval; unfold tol_R; cmp_eval; reflexivity.

(** ** Translation *)




(** ** Dot products with the world basis *)

Lemma VDOT_e1 (v : vect_t R) : VDOT (mkvect 1 0 0) v = vX v.
Proof. unfold VDOT; cbn; ring. Qed.

Lemma VDOT_e2 (v : vect_t R) : VDOT (mkvect 0 1 0) v = vY v.
Proof. unfold VDOT; cbn; ring. Qed.

Lemma VDOT_e3 (v : vect_t R) : VDOT (mkvect 0 0 1) v = vZ v.
Proof. unfold VDOT; cbn; ring. Qed.

Lemma VDOT_comm (a b : vect_t R) : VDOT a b = VDOT b a.
Proof. unfold VDOT; cbn; ring. Qed.

(** ** The parallel-pair flag *)

Lemma flag_step (a c : R) (f : Z) :
  (if Rgeb a c then 1%Z else f) <> 0%Z <-> a >= c \/ f <> 0%Z.
Proof.
  unfold Rgeb. destruct (Rge_dec a c); split; intros H.
  - now left.
  - discriminate.
  - now right.
  - destruct H; [contradiction | assumption].
Qed.

(** In bg_sat_abb_obb the flag is set exactly when one of the nine absolute
    dot products [|A1[j][i]|] reaches the cutoff. *)
Lemma abb_flag_iff (eps : R) (A1 : nat -> vect_t R) :
  t_existsParallelPair (abb_dots eps A1) <> 0%Z <->
  exists i j, (i <= 2)%nat /\ (j <= 2)%nat /\ Rabs (A1 j).[i] >= 1 - eps.
Proof.
  unfold abb_dots, abb_row, for3.
  cbv beta iota zeta delta
    [fold_left seq tset t_dot01 t_absDot01 t_existsParallelPair dots_init
     Nat.eqb andb sat_cutoff].
  sat_ops. rewrite !flag_step.
  split.
  - intros H.
    repeat match type of H with _ \/ _ => destruct H as [H | H] end;
      try congruence.
    + exists 2%nat, 2%nat. auto.
    + exists 2%nat, 1%nat. auto.
    + exists 2%nat, 0%nat. auto.
    + exists 1%nat, 2%nat. auto.
    + exists 1%nat, 1%nat. auto.
    + exists 1%nat, 0%nat. auto.
    + exists 0%nat, 2%nat. auto.
    + exists 0%nat, 1%nat. auto.
    + exists 0%nat, 0%nat. auto.
  - intros (i & j & Hi & Hj & H).
    assert (Hi' : (i = 0 \/ i = 1 \/ i = 2)%nat) by lia.
    assert (Hj' : (j = 0 \/ j = 1 \/ j = 2)%nat) by lia.
    destruct Hi' as [-> | [-> | ->]], Hj' as [-> | [-> | ->]]; tauto.
Qed.

(** Once the flag is set and no face test separates, the verdict is 1
    whatever the edge tests would say. *)
Lemma sat_verdict_parallel {fastf_t : Type} {ops : fastf_ops fastf_t}
    (faces edges : list (fastf_t * fastf_t)) (flag : Z) :
  flag <> 0%Z -> existsb separates faces = false ->
  sat_verdict faces flag edges = 1%Z.
Proof.
  intros Hf Hs. unfold sat_verdict.
  rewrite run_tests_none.
  - destruct (Z.eqb_spec flag 0); [contradiction | reflexivity].
  - intros ax Hin. destruct (separates ax) eqn:E; [| reflexivity].
    rewrite <- Hs. symmetry. apply existsb_exists. now exists ax.
Qed.

(** ** The frame tilted to the cutoff *)

Lemma s_cut_sq : s_cut * s_cut = 1 - c_cut * c_cut.
Proof. unfold s_cut. apply sqrt_sqrt. unfold c_cut, tol_R. lra. Qed.

Lemma s_cut_bounds : 1 / 10 ^ 8 < s_cut < 1 / 10 ^ 7.
Proof.
  assert (H := s_cut_sq). assert (0 <= s_cut) by apply sqrt_pos.
  unfold c_cut, tol_R in H. split; nra.
Qed.

Lemma tilt_magnitudes :
  MAGNITUDE tilt_e1 = 10 /\ MAGNITUDE tilt_e2 = 5 /\ MAGNITUDE tilt_e3 = 5.
Proof.
  assert (Hs := s_cut_sq).
  repeat split; apply MAGNITUDE_R; cbn; lra.
Qed.

Lemma tilt_valid : valid_obb tilt_e1 tilt_e2 tilt_e3.
Proof.
  assert (Hs := s_cut_sq).
  unfold valid_obb, VDOT, MAGSQ, tilt_e1, tilt_e2, tilt_e3. cbn.
  repeat split; lra.
Qed.

(** Evaluation on the tilted frame: the magnitudes, then linear arithmetic
    in [s_cut] between its bounds. *)
Ltac tilt_eval :=
  let Hs := fresh "Hs" in let Hb := fresh "Hb" in
  assert (Hs := s_cut_sq); assert (Hb := s_cut_bounds);
  destruct tilt_magnitudes as (M1 & M2 & M3);
  sat_unfold; mag_units; try mag 0%Z 0%Z 2%Z 2;
  rewrite ?M1, ?M2, ?M3;
  unfold tilt_e1, tilt_e2, tilt_e3; sat_ops; unfold c_cut, tol_R in *;
  rabs_eval; cmp_eval.

(** ** Rotation by a quarter turn *)

Lemma rot_z90_ivect (x y z : Z) :
  mat_apply rot_z90 (ivect x y z) = ivect (- y) x z.
Proof.
  unfold mat_apply, rot_z90, ivect, VDOT. cbn. rewrite opp_IZR. f_equal; ring.
Qed.

Lemma rot_z90_rotation : is_rotation rot_z90.
Proof. unfold is_rotation, rot_z90, mat_det, VDOT. cbn. repeat split; ring. Qed.

(** ** bg_sat_abb_obb is a conservative test in exact arithmetic *)

Lemma Rabs_mult_le (x y X Y : R) : Rabs x <= X -> Rabs y <= Y -> Rabs (x * y) <= X * Y.
Proof.
  intros Hx Hy. rewrite Rabs_mult.
  assert (0 <= Rabs x) by apply Rabs_pos. assert (0 <= Rabs y) by apply Rabs_pos.
  nra.
Qed.

Lemma Rabs_le_inv (x y : R) : Rabs x <= y -> - y <= x <= y.
Proof. unfold Rabs. destruct (Rcase_abs x); lra. Qed.

Lemma sq_sum_zero (x y z : R) : x * x + y * y + z * z = 0 -> x = 0 /\ y = 0 /\ z = 0.
Proof. intros H. repeat split; nra. Qed.

Lemma det_sq_gram (a b c : vect_t R) :
  VDOT (vcross a b) c * VDOT (vcross a b) c =
  VDOT a a * (VDOT b b * VDOT c c - VDOT b c * VDOT b c)
  - VDOT a b * (VDOT a b * VDOT c c - VDOT b c * VDOT a c)
  + VDOT a c * (VDOT a b * VDOT b c - VDOT b b * VDOT a c).
Proof. unfold VDOT, vcross. cbn. ring. Qed.

Lemma cross_orthonormal (a b c : vect_t R) :
  orthonormal a b c ->
  let s := VDOT (vcross a b) c in
  (s = 1 \/ s = -1) /\
  vX (vcross a b) = s * vX c /\ vY (vcross a b) = s * vY c /\ vZ (vcross a b) = s * vZ c.
Proof.
  intros (Haa & Hbb & Hcc & Hab & Hac & Hbc) s.
  assert (Hs : s * s = 1).
  { unfold s. rewrite det_sq_gram, Haa, Hbb, Hcc, Hab, Hac, Hbc. ring. }
  assert (Hw : VDOT (vcross a b) (vcross a b) = 1).
  { transitivity (VDOT a a * VDOT b b - VDOT a b * VDOT a b).
    - unfold VDOT, vcross. cbn. ring.
    - rewrite Haa, Hbb, Hab. ring. }
  split.
  - assert ((s - 1) * (s + 1) = 0) by lra.
    destruct (Rmult_integral _ _ H); [left | right]; lra.
  - assert (H0 : (vX (vcross a b) - s * vX c) * (vX (vcross a b) - s * vX c)
                + (vY (vcross a b) - s * vY c) * (vY (vcross a b) - s * vY c)
                + (vZ (vcross a b) - s * vZ c) * (vZ (vcross a b) - s * vZ c) = 0).
    { transitivity (VDOT (vcross a b) (vcross a b)
                    - 2 * s * VDOT (vcross a b) c + s * s * VDOT c c).
      - unfold VDOT. cbn. ring.
      - fold s. rewrite Hw, Hcc. nra. }
    destruct (sq_sum_zero _ _ _ H0) as (Hx & Hy & Hz).
    repeat split; lra.
Qed.

Lemma orthonormal_rot (a b c : vect_t R) : orthonormal a b c -> orthonormal b c a.
Proof.
  intros (Haa & Hbb & Hcc & Hab & Hac & Hbc).
  unfold orthonormal. rewrite (VDOT_comm c a), (VDOT_comm b a). tauto.
Qed.

(** Components of the cross products of an orthonormal frame, up to sign. *)
Lemma abs_cross (a b c : vect_t R) :
  orthonormal a b c ->
  forall i : nat,
    Rabs (vcross a b).[i] = Rabs c.[i] /\
    Rabs (vcross b c).[i] = Rabs a.[i] /\
    Rabs (vcross c a).[i] = Rabs b.[i].
Proof.
  intros H i.
  assert (K : forall u v w, orthonormal u v w -> Rabs (vcross u v).[i] = Rabs w.[i]).
  { intros u v w Ho. destruct (cross_orthonormal _ _ _ Ho) as (Hs & Hx & Hy & Hz).
    cbv zeta in *. set (s := VDOT (vcross u v) w) in *.
    assert (Ha : Rabs s = 1)
      by (destruct Hs as [-> | ->]; unfold Rabs; destruct Rcase_abs; lra).
    destruct i as [|[|i]]; cbn [vidx];
      rewrite ?Hx, ?Hy, ?Hz, Rabs_mult, Ha; ring. }
  repeat split; apply K; auto using orthonormal_rot.
Qed.

Lemma MAGSQ_nonneg (v : vect_t R) : 0 <= MAGSQ v.
Proof.
  unfold MAGSQ. sat_ops.
  assert (Hx := Rle_0_sqr (vX v)). assert (Hy := Rle_0_sqr (vY v)).
  assert (Hz := Rle_0_sqr (vZ v)). unfold Rsqr in *. lra.
Qed.

Lemma MAGNITUDE_sq (v : vect_t R) : MAGNITUDE v * MAGNITUDE v = MAGSQ v.
Proof. unfold MAGNITUDE, fsqrt, fastf_R. apply sqrt_sqrt, MAGSQ_nonneg. Qed.

Lemma MAGNITUDE_pos (v : vect_t R) : MAGSQ v <> 0 -> 0 < MAGNITUDE v.
Proof.
  intros H. unfold MAGNITUDE, fsqrt, fastf_R. apply sqrt_lt_R0.
  destruct (MAGSQ_nonneg v) as [Hlt | Heq]; [exact Hlt | now elim H].
Qed.

Lemma VDOT_VUNITIZE (u v : vect_t R) :
  MAGSQ u <> 0 -> MAGSQ v <> 0 ->
  VDOT (VUNITIZE u) (VUNITIZE v) = VDOT u v / (MAGNITUDE u * MAGNITUDE v).
Proof.
  intros Hu Hv. apply MAGNITUDE_pos in Hu, Hv.
  sat_unfold. sat_ops. field. split; lra.
Qed.

Lemma VUNITIZE_unit (u : vect_t R) : MAGSQ u <> 0 -> VDOT (VUNITIZE u) (VUNITIZE u) = 1.
Proof.
  intros Hu. rewrite VDOT_VUNITIZE by assumption.
  replace (VDOT u u) with (MAGSQ u) by reflexivity.
  rewrite <- MAGNITUDE_sq. apply MAGNITUDE_pos in Hu. sat_ops. field. lra.
Qed.

Lemma valid_obb_orthonormal (e1 e2 e3 : vect_t R) :
  valid_obb e1 e2 e3 -> orthonormal (VUNITIZE e1) (VUNITIZE e2) (VUNITIZE e3).
Proof.
  intros (H12 & H13 & H23 & H1 & H2 & H3). unfold orthonormal.
  rewrite !VUNITIZE_unit by assumption.
  rewrite !VDOT_VUNITIZE by assumption.
  rewrite H12, H13, H23. unfold Rdiv. rewrite !Rmult_0_l. tauto.
Qed.

Lemma VUNITIZE_scale (e : vect_t R) :
  MAGSQ e <> 0 ->
  vX e = MAGNITUDE e * vX (VUNITIZE e) /\
  vY e = MAGNITUDE e * vY (VUNITIZE e) /\
  vZ e = MAGNITUDE e * vZ (VUNITIZE e).
Proof.
  intros H. apply MAGNITUDE_pos in H. sat_unfold. sat_ops.
  repeat split; field; lra.
Qed.

Section AxisBound.
Variables (E0 D q a0 a1 a2 : vect_t R) (m0 m1 m2 s0 s1 s2 : R).
Hypothesis Hqx : Rabs (vX q) <= vX E0.
Hypothesis Hqy : Rabs (vY q) <= vY E0.
Hypothesis Hqz : Rabs (vZ q) <= vZ E0.
Hypothesis Hs0 : Rabs s0 <= 1.
Hypothesis Hs1 : Rabs s1 <= 1.
Hypothesis Hs2 : Rabs s2 <= 1.
Hypothesis Hm0 : 0 <= m0.
Hypothesis Hm1 : 0 <= m1.
Hypothesis Hm2 : 0 <= m2.
Hypothesis HDx : vX D = vX q - (s0 * (m0 * vX a0) + s1 * (m1 * vX a1) + s2 * (m2 * vX a2)).
Hypothesis HDy : vY D = vY q - (s0 * (m0 * vY a0) + s1 * (m1 * vY a1) + s2 * (m2 * vY a2)).
Hypothesis HDz : vZ D = vZ q - (s0 * (m0 * vZ a0) + s1 * (m1 * vZ a1) + s2 * (m2 * vZ a2)).

(** The projection of [D] on any direction [L] is bounded by the sum of
    the projected radii of the two boxes. *)
Lemma axis_bound (L : vect_t R) :
  Rabs (VDOT L D) <=
  Rabs (vX L) * vX E0 + Rabs (vY L) * vY E0 + Rabs (vZ L) * vZ E0
  + m0 * Rabs (VDOT L a0) + m1 * Rabs (VDOT L a1) + m2 * Rabs (VDOT L a2).
Proof.
  assert (Hx := Rabs_mult_le _ _ _ _ (Rle_refl (Rabs (vX L))) Hqx).
  assert (Hy := Rabs_mult_le _ _ _ _ (Rle_refl (Rabs (vY L))) Hqy).
  assert (Hz := Rabs_mult_le _ _ _ _ (Rle_refl (Rabs (vZ L))) Hqz).
  assert (H0 := Rabs_mult_le _ _ _ _ Hs0 (Rle_refl (Rabs (VDOT L a0)))).
  assert (H1 := Rabs_mult_le _ _ _ _ Hs1 (Rle_refl (Rabs (VDOT L a1)))).
  assert (H2 := Rabs_mult_le _ _ _ _ Hs2 (Rle_refl (Rabs (VDOT L a2)))).
  assert (P0 := Rabs_pos (VDOT L a0)).
  assert (P1 := Rabs_pos (VDOT L a1)).
  assert (P2 := Rabs_pos (VDOT L a2)).
  replace (VDOT L D) with
    (vX L * vX q + vY L * vY q + vZ L * vZ q
     - m0 * (s0 * VDOT L a0) - m1 * (s1 * VDOT L a1) - m2 * (s2 * VDOT L a2))
    by (unfold VDOT; cbn; rewrite HDx, HDy, HDz; ring).
  apply Rabs_le_inv in Hx, Hy, Hz, H0, H1, H2.
  apply Rabs_le. split; nra.
Qed.
End AxisBound.

Ltac vring := cbv [VDOT vcross]; cbn [vX vY vZ]; sat_ops; ring.

(** In [H], turn [Rabs t] into 0 or into [Rabs u] for a component [u] of
    one of the axes or of one of their cross products, when [t] is 0, [u] or
    [- u] as a polynomial. *)
Ltac abs_norm H t u :=
  replace (Rabs t) with (Rabs u) in H
    by (first [ f_equal; vring | rewrite <- (Rabs_Ropp u); f_equal; vring ]).

Ltac abs_find H t a0 a1 a2 :=
  first
    [ replace (Rabs t) with 0 in H
        by (symmetry; replace t with 0 by vring; apply Rabs_R0)
    | abs_norm H t (vX a0) | abs_norm H t (vY a0) | abs_norm H t (vZ a0)
    | abs_norm H t (vX a1) | abs_norm H t (vY a1) | abs_norm H t (vZ a1)
    | abs_norm H t (vX a2) | abs_norm H t (vY a2) | abs_norm H t (vZ a2)
    | abs_norm H t (vX (vcross a0 a1)) | abs_norm H t (vY (vcross a0 a1))
    | abs_norm H t (vZ (vcross a0 a1))
    | abs_norm H t (vX (vcross a1 a2)) | abs_norm H t (vY (vcross a1 a2))
    | abs_norm H t (vZ (vcross a1 a2))
    | abs_norm H t (vX (vcross a2 a0)) | abs_norm H t (vY (vcross a2 a0))
    | abs_norm H t (vZ (vcross a2 a0)) ].

(** The bound [AB] at the direction [L], its left side matched to the code's
    [r]. *)
Ltac axis_lhs AB Hsep L D H :=
  pose proof (AB L) as H;
  lazymatch type of Hsep with
  | Rabs ?inner > _ => replace (VDOT L D) with inner in H by vring
  end.

(** An edge axis [u x a]: every absolute value of the bound is normalised,
    the components of the cross products of the frame are replaced by those
    of the third axis, and the bound contradicts [Hsep]. *)
Ltac edge_axis AB Hsep u a D a0 a1 a2 :=
  let H := fresh "H" in
  let L := constr:(vcross u a) in
  axis_lhs AB Hsep L D H;
  abs_find H (vX L) a0 a1 a2; abs_find H (vY L) a0 a1 a2; abs_find H (vZ L) a0 a1 a2;
  abs_find H (VDOT L a0) a0 a1 a2; abs_find H (VDOT L a1) a0 a1 a2;
  abs_find H (VDOT L a2) a0 a1 a2;
  repeat match goal with
  | C : Rabs (_ (vcross _ _)) = Rabs _ |- _ => rewrite C in H
  end;
  lra.

(** Over the reals bg_sat_abb_obb is conservative: when it returns 0 for
    a well-formed oriented box, no point lies in both boxes. *)
Lemma bg_sat_abb_obb_conservative (eps : R) (mn mx c e1 e2 e3 : vect_t R) :
  valid_obb e1 e2 e3 ->
  bg_sat_abb_obb eps mn mx c e1 e2 e3 = 0%Z ->
  forall p, in_abb mn mx p -> in_obb c e1 e2 e3 p -> False.
Proof.
  intros Hv H0 p (Hpx & Hpy & Hpz) (s0 & s1 & s2 & Hs0 & Hs1 & Hs2 & Hp).
  destruct (bg_sat_abb_obb_axes _ _ _ _ _ _ _ H0) as ([r r01] & Hin & Hsep).
  unfold separates in Hsep. cbn [fst snd] in Hsep. apply Rgtb_true_iff in Hsep.
  pose proof (valid_obb_orthonormal _ _ _ Hv) as Ho.
  destruct Hv as (_ & _ & _ & N1 & N2 & N3).
  pose proof (abs_cross _ _ _ Ho 0%nat) as (Cx2 & Cx0 & Cx1).
  pose proof (abs_cross _ _ _ Ho 1%nat) as (Cy2 & Cy0 & Cy1).
  pose proof (abs_cross _ _ _ Ho 2%nat) as (Cz2 & Cz0 & Cz1).
  cbn [vidx] in Cx2, Cx0, Cx1, Cy2, Cy0, Cy1, Cz2, Cz0, Cz1.
  destruct (VUNITIZE_scale _ N1) as (X1 & Y1 & Z1).
  destruct (VUNITIZE_scale _ N2) as (X2 & Y2 & Z2).
  destruct (VUNITIZE_scale _ N3) as (X3 & Y3 & Z3).
  apply MAGNITUDE_pos in N1, N2, N3.
  destruct Ho as (U0 & U1 & U2 & O01 & O02 & O12).
  unfold abb_obb_axes, obb_axes, obb_halfext in Hin. cbv zeta in Hin.
  set (a0 := VUNITIZE e1) in *. set (a1 := VUNITIZE e2) in *. set (a2 := VUNITIZE e3) in *.
  set (m0 := MAGNITUDE e1) in *. set (m1 := MAGNITUDE e2) in *. set (m2 := MAGNITUDE e3) in *.
  set (D := VSUB2 c (abb_center mn mx)) in *.
  set (E0 := abb_halfext mn mx) in *.
  assert (AB : forall L : vect_t R,
    Rabs (VDOT L D) <=
    Rabs (vX L) * vX E0 + Rabs (vY L) * vY E0 + Rabs (vZ L) * vZ E0
    + m0 * Rabs (VDOT L a0) + m1 * Rabs (VDOT L a1) + m2 * Rabs (VDOT L a2)).
  { apply (axis_bound E0 D (VSUB2 p (abb_center mn mx)) a0 a1 a2 m0 m1 m2 s0 s1 s2).
    1-3: subst E0;
      cbv [abb_halfext abb_center VSUB2 VSUB2SCALE VADD2SCALE]; cbn [vX vY vZ];
      sat_ops; apply Rabs_le; lra.
    1-3: apply Rabs_le; lra.
    1-3: lra.
    all: subst D; rewrite Hp;
      cbv [abb_center VSUB2 VADD2SCALE vadd vscale]; cbn [vX vY vZ]; sat_ops;
      rewrite ?X1, ?Y1, ?Z1, ?X2, ?Y2, ?Z2, ?X3, ?Y3, ?Z3; ring. }
  clearbody a0 a1 a2 m0 m1 m2 D E0.
  cbv beta iota zeta delta
    [face_axes edge_axes app abb_dots abb_row for3 fold_left seq tset
     t_dot01 t_absDot01 t_existsParallelPair dots_init Nat.eqb andb vidx arr3
     VSET sat_cutoff] in Hin.
  cbn [vX vY vZ In] in Hin.
  change (@fadd R fastf_R) with Rplus in Hin;
  change (@fsub R fastf_R) with Rminus in Hin;
  change (@fmul R fastf_R) with Rmult in Hin;
  change (@fabs R fastf_R) with Rabs in Hin.
  repeat (destruct Hin as [Hin | Hin]; [injection Hin as <- <- |]); [.. | contradiction].
  - pose proof (AB (mkvect 1 0 0)) as H. rewrite !VDOT_e1 in H. cbn [vX vY vZ] in H.
    rewrite Rabs_R1, Rabs_R0 in H. lra.
  - pose proof (AB (mkvect 0 1 0)) as H. rewrite !VDOT_e2 in H. cbn [vX vY vZ] in H.
    rewrite Rabs_R1, Rabs_R0 in H. lra.
  - pose proof (AB (mkvect 0 0 1)) as H. rewrite !VDOT_e3 in H. cbn [vX vY vZ] in H.
    rewrite Rabs_R1, Rabs_R0 in H. lra.
  - axis_lhs AB Hsep a0 D H. rewrite U0, O01, O02 in H.
    rewrite Rabs_R1, Rabs_R0 in H. lra.
  - axis_lhs AB Hsep a1 D H. rewrite (VDOT_comm a1 a0), U1, O01, O12 in H.
    rewrite Rabs_R1, Rabs_R0 in H. lra.
  - axis_lhs AB Hsep a2 D H.
    rewrite (VDOT_comm a2 a0), (VDOT_comm a2 a1), U2, O02, O12 in H.
    rewrite Rabs_R1, Rabs_R0 in H. lra.
  - edge_axis AB Hsep (mkvect 1 0 0) a0 D a0 a1 a2.
  - edge_axis AB Hsep (mkvect 1 0 0) a1 D a0 a1 a2.
  - edge_axis AB Hsep (mkvect 1 0 0) a2 D a0 a1 a2.
  - edge_axis AB Hsep (mkvect 0 1 0) a0 D a0 a1 a2.
  - edge_axis AB Hsep (mkvect 0 1 0) a1 D a0 a1 a2.
  - edge_axis AB Hsep (mkvect 0 1 0) a2 D a0 a1 a2.
  - edge_axis AB Hsep (mkvect 0 0 1) a0 D a0 a1 a2.
  - edge_axis AB Hsep (mkvect 0 0 1) a1 D a0 a1 a2.
  - edge_axis AB Hsep (mkvect 0 0 1) a2 D a0 a1 a2.
Qed.

(** The conservativeness above is a fact of exact arithmetic.  On binary64
    the aligned cube [-1,1]^3 and the well-formed box with centre (-12,3,0)
    and extent vectors (3,4,0), (-8,6,0), (0,0,1) share the corner (-1,1,0),
    and bg_sat_abb_obb returns 0 for every tolerance: on the axis A1[1] the
    rounded r exceeds the rounded r01 by one unit in the last place. *)
Lemma bg_sat_abb_obb_rounds_apart :
  valid_obb (ivect 3 4 0) (ivect (-8) 6 0) (ivect 0 0 1) /\
  in_abb (ivect (-1) (-1) (-1)) (ivect 1 1 1) (ivect (-1) 1 0) /\
  in_obb (ivect (-12) 3 0) (ivect 3 4 0) (ivect (-8) 6 0) (ivect 0 0 1) (ivect (-1) 1 0) /\
  (forall eps : float,
     bg_sat_abb_obb eps (ivect (-1) (-1) (-1)) (ivect 1 1 1)
                        (ivect (-12) 3 0) (ivect 3 4 0) (ivect (-8) 6 0) (ivect 0 0 1) = 0%Z).
Proof.
  split; [unfold valid_obb, VDOT, MAGSQ, ivect; cbn; repeat split; lra |].
  split; [unfold in_abb, ivect; cbn; lra |].
  split.
  - exists 1, (-1), 0. unfold vadd, vscale, ivect. cbn.
    split; [lra | split; [lra | split; [lra | f_equal; lra]]].
  - intros eps. vm_compute.
    repeat match goal with |- context [if ?c then _ else _] => destruct c end; reflexivity.
Qed.

(** ** The claims *)

(** C1.  In exact real arithmetic only (first conjunct: every scalar is a
    real number; on binary64 rounding breaks it, see
    [bg_sat_abb_obb_rounds_apart]) bg_sat_abb_obb is conservative: for a
    well-formed oriented box, a result 0 means that no point lies in both
    boxes.  bg_sat_obb_obb is not, in either arithmetic.
    The boxes A (centre the origin, extent vectors (0,1,0), (1,0,0),
    (0,0,1)) and B (centre (0,5,0), extent vectors (1,0,0), (0,10,0),
    (0,0,1)) are well formed and both contain the origin, yet
    bg_sat_obb_obb A B returns 0, over the reals and on binary64, for every
    tolerance: line 316 fills absDot01[0][i] with |A1[i][0]| instead of
    |dot01[0][i]|. *)
Theorem obb_obb_separates_overlapping_boxes :
  (forall (eps : R) (mn mx c e1 e2 e3 : vect_t R),
     valid_obb e1 e2 e3 ->
     bg_sat_abb_obb eps mn mx c e1 e2 e3 = 0%Z ->
     forall p, in_abb mn mx p -> in_obb c e1 e2 e3 p -> False) /\
  valid_obb (ivect 0 1 0) (ivect 1 0 0) (ivect 0 0 1) /\
  valid_obb (ivect 1 0 0) (ivect 0 10 0) (ivect 0 0 1) /\
  in_obb (ivect 0 0 0) (ivect 0 1 0) (ivect 1 0 0) (ivect 0 0 1) (ivect 0 0 0) /\
  in_obb (ivect 0 5 0) (ivect 1 0 0) (ivect 0 10 0) (ivect 0 0 1) (ivect 0 0 0) /\
  (forall eps : R,
     bg_sat_obb_obb eps (ivect 0 0 0) (ivect 0 1 0) (ivect 1 0 0) (ivect 0 0 1)
                        (ivect 0 5 0) (ivect 1 0 0) (ivect 0 10 0) (ivect 0 0 1) = 0%Z) /\
  (forall eps : float,
     bg_sat_obb_obb eps (ivect 0 0 0) (ivect 0 1 0) (ivect 1 0 0) (ivect 0 0 1)
                        (ivect 0 5 0) (ivect 1 0 0) (ivect 0 10 0) (ivect 0 0 1) = 0%Z).
Proof.
  split; [exact bg_sat_abb_obb_conservative |].
  split; [unfold valid_obb, VDOT, MAGSQ, ivect; cbn; repeat split; lra |].
  split; [unfold valid_obb, VDOT, MAGSQ, ivect; cbn; repeat split; lra |].
  split; [| split; [| split]].
  - exists 0, 0, 0. unfold vadd, vscale, ivect. cbn.
    split; [lra | split; [lra | split; [lra | f_equal; lra]]].
  - exists 0, (-1 / 2), 0. unfold vadd, vscale, ivect. cbn.
    split; [lra | split; [lra | split; [lra | f_equal; lra]]].
  - intros eps. rewrite bg_sat_obb_obb_verdict. sat_unfold.
    mag_units. mag 0%Z 10%Z 0%Z 10. sat_eval.
  - intros eps. vm_compute. reflexivity.
Qed.

(** The conservative half of C1 at the separated boxes of C9: the aligned
    cube [-1,1]^3 and the unit box centred at (10,0,0) share no point. *)
Lemma obb_obb_separates_overlapping_boxes_witness :
  valid_obb (ivect 1 0 0) (ivect 0 1 0) (ivect 0 0 1) /\
  bg_sat_abb_obb tol_R (ivect (-1) (-1) (-1)) (ivect 1 1 1)
                       (ivect 10 0 0) (ivect 1 0 0) (ivect 0 1 0) (ivect 0 0 1) = 0%Z /\
  (forall p, in_abb (ivect (-1) (-1) (-1)) (ivect 1 1 1) p ->
             in_obb (ivect 10 0 0) (ivect 1 0 0) (ivect 0 1 0) (ivect 0 0 1) p -> False).
Proof.
  assert (Hv : valid_obb (ivect 1 0 0) (ivect 0 1 0) (ivect 0 0 1))
    by (unfold valid_obb, VDOT, MAGSQ, ivect; cbn; repeat split; lra).
  assert (H0 : bg_sat_abb_obb tol_R (ivect (-1) (-1) (-1)) (ivect 1 1 1)
                 (ivect 10 0 0) (ivect 1 0 0) (ivect 0 1 0) (ivect 0 0 1) = 0%Z)
    by (rewrite bg_sat_abb_obb_verdict; sat_unfold; mag_units; sat_eval).
  split; [exact Hv | split; [exact H0 |]].
  exact (proj1 obb_obb_separates_overlapping_boxes tol_R _ _ _ _ _ _ Hv H0).
Defined.

(** C2.  The tables of bg_sat_obb_obb after its three loops: dot01[i][j] is
    A0[i].A1[j] for all i, j in 0..2, and absDot01[i][j] is its absolute value
    in rows 1 and 2; row 0 of absDot01 holds |A1[j][0]| instead (line 316).
    With A0[0] = (0,1,0) and A1[0] = (1,0,0) the entry absDot01[0][0] is 1
    while |A0[0].A1[0]| is 0, over the reals and on binary64. *)
Theorem obb_obb_absDot01_row0 :
  (forall (fastf_t : Type) (ops : fastf_ops fastf_t) (eps : fastf_t)
          (A0 A1 : nat -> vect_t fastf_t) (i j : nat),
     (i <= 2)%nat -> (j <= 2)%nat ->
     t_dot01 (obb_dots eps A0 A1) i j = VDOT (A0 i) (A1 j) /\
     ((1 <= i)%nat ->
      t_absDot01 (obb_dots eps A0 A1) i j = fabs (VDOT (A0 i) (A1 j))) /\
     t_absDot01 (obb_dots eps A0 A1) 0%nat j = fabs (A1 j).[0%nat]) /\
  (forall eps : R,
     let A0 := obb_axes (ivect 0 1 0) (ivect 1 0 0) (ivect 0 0 1) in
     let A1 := obb_axes (ivect 1 0 0) (ivect 0 10 0) (ivect 0 0 1) in
     t_absDot01 (obb_dots eps A0 A1) 0%nat 0%nat = 1 /\
     Rabs (VDOT (A0 0%nat) (A1 0%nat)) = 0) /\
  (forall eps : float,
     let A0 := obb_axes (ivect 0 1 0) (ivect 1 0 0) (ivect 0 0 1) in
     let A1 := obb_axes (ivect 1 0 0) (ivect 0 10 0) (ivect 0 0 1) in
     t_absDot01 (obb_dots eps A0 A1) 0%nat 0%nat = 1%float /\
     PrimFloat.abs (VDOT (A0 0%nat) (A1 0%nat)) = 0%float).
Proof.
  split; [| split].
  - intros T ops eps A0 A1 i j Hi Hj.
    assert (Hi' : (i = 0 \/ i = 1 \/ i = 2)%nat) by lia.
    assert (Hj' : (j = 0 \/ j = 1 \/ j = 2)%nat) by lia.
    destruct Hi' as [-> | [-> | ->]], Hj' as [-> | [-> | ->]];
      (split; [reflexivity | split; [intros Hge; try reflexivity; lia | reflexivity]]).
  - intros eps A0 A1. subst A0 A1. split.
    + sat_unfold. mag_units. sat_ops. rabs_eval. lra.
    + sat_unfold. mag_units. sat_ops. rabs_eval. lra.
  - intros eps A0 A1. subst A0 A1. split; vm_compute; reflexivity.
Qed.

(** The generic half of C2 at the entry [1][2] of the tables of two boxes
    with integer extents, on binary64. *)
Lemma obb_obb_absDot01_row0_witness :
  let A0 : nat -> vect_t float := obb_axes (ivect 0 1 0) (ivect 1 0 0) (ivect 0 0 1) in
  let A1 : nat -> vect_t float := obb_axes (ivect 1 0 0) (ivect 0 10 0) (ivect 0 0 1) in
  (1 <= 2)%nat /\ (2 <= 2)%nat /\
  t_dot01 (obb_dots tol_double A0 A1) 1%nat 2%nat = VDOT (A0 1%nat) (A1 2%nat) /\
  t_absDot01 (obb_dots tol_double A0 A1) 1%nat 2%nat
  = PrimFloat.abs (VDOT (A0 1%nat) (A1 2%nat)).
Proof.
  intros A0 A1.
  assert (H1 : (1 <= 2)%nat) by lia.
  assert (H2 : (2 <= 2)%nat) by lia.
  split; [exact H1 | split; [exact H2 |]].
  destruct (proj1 obb_obb_absDot01_row0 float fastf_double tol_double A0 A1
              1%nat 2%nat H1 H2) as (Hd & Ha & _).
  split; [exact Hd | apply Ha; lia].
Defined.

(** C3.  bg_sat_obb_obb is not symmetric.  With the well-formed boxes A
    (centre the origin, extent vectors (0,1,0), (1,0,0), (0,0,1)) and B
    (centre (0,5,0), extent vectors (1,0,0), (0,10,0), (0,0,1)),
    bg_sat_obb_obb A B is 0 and bg_sat_obb_obb B A is 1, over the reals and
    on binary64, for every tolerance. *)
Theorem obb_obb_not_symmetric :
  valid_obb (ivect 0 1 0) (ivect 1 0 0) (ivect 0 0 1) /\
  valid_obb (ivect 1 0 0) (ivect 0 10 0) (ivect 0 0 1) /\
  (forall eps : R,
     bg_sat_obb_obb eps (ivect 0 0 0) (ivect 0 1 0) (ivect 1 0 0) (ivect 0 0 1)
                        (ivect 0 5 0) (ivect 1 0 0) (ivect 0 10 0) (ivect 0 0 1) = 0%Z /\
     bg_sat_obb_obb eps (ivect 0 5 0) (ivect 1 0 0) (ivect 0 10 0) (ivect 0 0 1)
                        (ivect 0 0 0) (ivect 0 1 0) (ivect 1 0 0) (ivect 0 0 1) = 1%Z) /\
  (forall eps : float,
     bg_sat_obb_obb eps (ivect 0 0 0) (ivect 0 1 0) (ivect 1 0 0) (ivect 0 0 1)
                        (ivect 0 5 0) (ivect 1 0 0) (ivect 0 10 0) (ivect 0 0 1) = 0%Z /\
     bg_sat_obb_obb eps (ivect 0 5 0) (ivect 1 0 0) (ivect 0 10 0) (ivect 0 0 1)
                        (ivect 0 0 0) (ivect 0 1 0) (ivect 1 0 0) (ivect 0 0 1) = 1%Z).
Proof.
  split; [| split; [| split]].
  - unfold valid_obb, VDOT, MAGSQ, ivect; cbn; repeat split; lra.
  - unfold valid_obb, VDOT, MAGSQ, ivect; cbn; repeat split; lra.
  - intros eps. split.
    + rewrite bg_sat_obb_obb_verdict. sat_unfold. mag_units. mag 0%Z 10%Z 0%Z 10. sat_eval.
    + rewrite bg_sat_obb_obb_verdict. sat_unfold. mag_units. mag 0%Z 10%Z 0%Z 10. sat_eval.
  - intros eps. split; vm_compute;
      try match goal with |- (if ?c then _ else _) = _ => destruct c end; reflexivity.
Qed.

(** C4.  The two predicates disagree on well-formed boxes.  The aligned box
    has min < max in every component, the oriented box is well formed, the
    aligned box is re-expressed as the oriented box with centre (min+max)/2
    and extent vectors the world basis scaled by (max-min)/2, and yet
    bg_sat_abb_obb returns 1 where bg_sat_obb_obb returns 0:
    - on binary64, tolerance 1e-15, at the integer boxes [near_*] (every
      coordinate, and the re-expressed centre and extents, exact);
    - over the reals, tolerance 1e-15, at the frame tilted to the cutoff.
    In both, |A0[1].A1[0]| equals cutoff: bg_sat_abb_obb tests >= cutoff
    (lines 113, 126, 140), sets the flag and returns 1 after the face tests;
    bg_sat_obb_obb tests > cutoff in rows 1 and 2 (lines 331, 345), leaves
    the flag at 0 and returns 0 from an edge test. *)
Theorem abb_obb_disagrees_with_obb_obb :
  (abb_lt near_min near_max /\
   valid_obb near_e1 near_e2 near_e3 /\
   abb_obb_center near_min near_max = (ivect 0 0 0 : vect_t float) /\
   abb_obb_extent1 near_min near_max = (near_f1 : vect_t float) /\
   abb_obb_extent2 near_min near_max = (near_f2 : vect_t float) /\
   abb_obb_extent3 near_min near_max = (near_f3 : vect_t float) /\
   bg_sat_abb_obb tol_double near_min near_max near_center near_e1 near_e2 near_e3 = 1%Z /\
   bg_sat_obb_obb tol_double
     (abb_obb_center near_min near_max) (abb_obb_extent1 near_min near_max)
     (abb_obb_extent2 near_min near_max) (abb_obb_extent3 near_min near_max)
     near_center near_e1 near_e2 near_e3 = 0%Z) /\
  (abb_lt (ivect (-1) (-1) (-2)) (ivect 1 1 2) /\
   valid_obb tilt_e1 tilt_e2 tilt_e3 /\
   bg_sat_abb_obb tol_R (ivect (-1) (-1) (-2)) (ivect 1 1 2)
                        (ivect (-8) 2 0) tilt_e1 tilt_e2 tilt_e3 = 1%Z /\
   bg_sat_obb_obb tol_R
     (abb_obb_center (ivect (-1) (-1) (-2)) (ivect 1 1 2))
     (abb_obb_extent1 (ivect (-1) (-1) (-2)) (ivect 1 1 2))
     (abb_obb_extent2 (ivect (-1) (-1) (-2)) (ivect 1 1 2))
     (abb_obb_extent3 (ivect (-1) (-1) (-2)) (ivect 1 1 2))
     (ivect (-8) 2 0) tilt_e1 tilt_e2 tilt_e3 = 0%Z).
Proof.
  split.
  - split; [unfold abb_lt, near_min, near_max, ivect; cbn; lra |].
    split; [unfold valid_obb, VDOT, MAGSQ, near_e1, near_e2, near_e3, ivect; cbn;
            repeat split; lra |].
    repeat split; vm_compute; reflexivity.
  - split; [unfold abb_lt, ivect; cbn; lra |].
    split; [exact tilt_valid |].
    split.
    + rewrite bg_sat_abb_obb_verdict. tilt_eval. reflexivity.
    + replace (abb_obb_center (ivect (-1) (-1) (-2)) (ivect 1 1 2)) with (ivect 0 0 0 : vect_t R)
        by (unfold abb_obb_center, ivect; cbn; f_equal; lra).
      replace (abb_obb_extent1 (ivect (-1) (-1) (-2)) (ivect 1 1 2)) with (ivect 1 0 0 : vect_t R)
        by (unfold abb_obb_extent1, ivect; cbn; f_equal; lra).
      replace (abb_obb_extent2 (ivect (-1) (-1) (-2)) (ivect 1 1 2)) with (ivect 0 1 0 : vect_t R)
        by (unfold abb_obb_extent2, ivect; cbn; f_equal; lra).
      replace (abb_obb_extent3 (ivect (-1) (-1) (-2)) (ivect 1 1 2)) with (ivect 0 0 2 : vect_t R)
        by (unfold abb_obb_extent3, ivect; cbn; f_equal; lra).
      rewrite bg_sat_obb_obb_verdict. tilt_eval. reflexivity.
Qed.

(** C5.  bg_sat_obb_obb reports touching boxes as separated.  The boxes A
    (centre the origin, extent vectors (0,1,0), (1,0,0), (0,0,1): the cube
    [-1,1]^3) and B (centre (0,3,0), extent vectors (1,0,0), (0,2,0),
    (0,0,1)) are well formed and world-aligned, share the point (0,1,0), and
    every point they share has y = 1: they touch along the plane y = 1 with
    gap 0.  bg_sat_obb_obb A B returns 0, over the reals and on binary64,
    for every tolerance: on the axis A0[0] = (0,1,0), r = 3 equals the sum
    of the projected radii 1 + 2, but line 316 fills absDot01[0][i] with
    |A1[i][0]| and the code compares r = 3 with r01 = 1 + 1 = 2.
    bg_sat_abb_obb on the same boxes (A as min = (-1,-1,-1), max = (1,1,1))
    returns 1, as both predicates do on the touching boxes of the spec
    (centres (0,0,0) and (2,0,0), where A0[0] is the world x axis). *)
Theorem obb_obb_separates_touching_boxes :
  valid_obb (ivect 0 1 0) (ivect 1 0 0) (ivect 0 0 1) /\
  valid_obb (ivect 1 0 0) (ivect 0 2 0) (ivect 0 0 1) /\
  in_obb (ivect 0 0 0) (ivect 0 1 0) (ivect 1 0 0) (ivect 0 0 1) (ivect 0 1 0) /\
  in_obb (ivect 0 3 0) (ivect 1 0 0) (ivect 0 2 0) (ivect 0 0 1) (ivect 0 1 0) /\
  (forall p,
     in_obb (ivect 0 0 0) (ivect 0 1 0) (ivect 1 0 0) (ivect 0 0 1) p ->
     in_obb (ivect 0 3 0) (ivect 1 0 0) (ivect 0 2 0) (ivect 0 0 1) p -> vY p = 1) /\
  (forall eps : R,
     bg_sat_obb_obb eps (ivect 0 0 0) (ivect 0 1 0) (ivect 1 0 0) (ivect 0 0 1)
                        (ivect 0 3 0) (ivect 1 0 0) (ivect 0 2 0) (ivect 0 0 1) = 0%Z /\
     bg_sat_abb_obb eps (ivect (-1) (-1) (-1)) (ivect 1 1 1)
                        (ivect 0 3 0) (ivect 1 0 0) (ivect 0 2 0) (ivect 0 0 1) = 1%Z) /\
  (forall eps : float,
     bg_sat_obb_obb eps (ivect 0 0 0) (ivect 0 1 0) (ivect 1 0 0) (ivect 0 0 1)
                        (ivect 0 3 0) (ivect 1 0 0) (ivect 0 2 0) (ivect 0 0 1) = 0%Z /\
     bg_sat_abb_obb eps (ivect (-1) (-1) (-1)) (ivect 1 1 1)
                        (ivect 0 3 0) (ivect 1 0 0) (ivect 0 2 0) (ivect 0 0 1) = 1%Z) /\
  (forall eps : R,
     bg_sat_obb_obb eps (ivect 0 0 0) (ivect 1 0 0) (ivect 0 1 0) (ivect 0 0 1)
                        (ivect 2 0 0) (ivect 1 0 0) (ivect 0 1 0) (ivect 0 0 1) = 1%Z /\
     bg_sat_abb_obb eps (ivect (-1) (-1) (-1)) (ivect 1 1 1)
                        (ivect 2 0 0) (ivect 1 0 0) (ivect 0 1 0) (ivect 0 0 1) = 1%Z) /\
  (forall eps : float,
     bg_sat_obb_obb eps (ivect 0 0 0) (ivect 1 0 0) (ivect 0 1 0) (ivect 0 0 1)
                        (ivect 2 0 0) (ivect 1 0 0) (ivect 0 1 0) (ivect 0 0 1) = 1%Z /\
     bg_sat_abb_obb eps (ivect (-1) (-1) (-1)) (ivect 1 1 1)
                        (ivect 2 0 0) (ivect 1 0 0) (ivect 0 1 0) (ivect 0 0 1) = 1%Z).
Proof.
  split; [unfold valid_obb, VDOT, MAGSQ, ivect; cbn; repeat split; lra |].
  split; [unfold valid_obb, VDOT, MAGSQ, ivect; cbn; repeat split; lra |].
  split; [| split; [| split; [| split; [| split; [| split]]]]].
  - exists 1, 0, 0. unfold vadd, vscale, ivect. cbn.
    split; [lra | split; [lra | split; [lra | f_equal; lra]]].
  - exists 0, (-1), 0. unfold vadd, vscale, ivect. cbn.
    split; [lra | split; [lra | split; [lra | f_equal; lra]]].
  - intros p (s1 & s2 & s3 & Hs1 & Hs2 & Hs3 & Hp) (t1 & t2 & t3 & Ht1 & Ht2 & Ht3 & Hq).
    assert (E := f_equal vY Hq). rewrite Hp in E. rewrite Hp.
    revert E. unfold vadd, vscale, ivect. cbn. lra.
  - intros eps. split.
    + rewrite bg_sat_obb_obb_verdict. sat_unfold. mag_units. mag 0%Z 2%Z 0%Z 2. sat_eval.
    + rewrite bg_sat_abb_obb_verdict. sat_unfold. mag_units. mag 0%Z 2%Z 0%Z 2. sat_eval.
  - intros eps. split; vm_compute;
      repeat match goal with |- context [if ?c then _ else _] => destruct c end; reflexivity.
  - intros eps. split.
    + rewrite bg_sat_obb_obb_verdict. sat_unfold. mag_units. sat_eval.
    + rewrite bg_sat_abb_obb_verdict. sat_unfold. mag_units. sat_eval.
  - intros eps. split; vm_compute;
      repeat match goal with |- context [if ?c then _ else _] => destruct c end; reflexivity.
Qed.

(** C6.  In bg_sat_abb_obb the flag is set exactly when one of the nine
    absolute dot products is >= cutoff, and a set flag with no face
    separation gives 1 whatever the edge tests are.  bg_sat_obb_obb misses
    pairs:
    - rows 1 and 2 compare with > (lines 331, 345).  On binary64 with
      tolerance 1e-15 and the integer boxes [near_*], |A0[1].A1[0]| equals
      cutoff, no face axis separates, the flag stays 0 and the function
      returns 0 from an edge test, while bg_sat_abb_obb on the same boxes
      returns 1.  Over the reals the same happens on the frame tilted exactly
      to the cutoff;
    - row 0 reads |A1[i][0]| (line 316): with A0[0] = A1[0] = (0,1,0) the
      product |A0[0].A1[0]| is 1 >= cutoff, no face axis separates, the flag
      stays 0 and the function returns 0 from an edge test (tolerance 1e-15,
      reals and binary64). *)
Theorem obb_obb_misses_parallel_pairs :
  (forall (eps : R) (mn mx c1 e1 e2 e3 : vect_t R),
     let A1 := obb_axes e1 e2 e3 in
     (t_existsParallelPair (abb_dots eps A1) <> 0%Z <->
      exists i j, (i <= 2)%nat /\ (j <= 2)%nat /\ Rabs (A1 j).[i] >= 1 - eps) /\
     (t_existsParallelPair (abb_dots eps A1) <> 0%Z ->
      existsb separates (firstn 6 (abb_obb_axes eps mn mx c1 e1 e2 e3)) = false ->
      bg_sat_abb_obb eps mn mx c1 e1 e2 e3 = 1%Z)) /\
  (abb_lt near_min near_max /\
   valid_obb near_e1 near_e2 near_e3 /\
   (let A0 : nat -> vect_t float := obb_axes near_f1 near_f2 near_f3 in
    let A1 : nat -> vect_t float := obb_axes near_e1 near_e2 near_e3 in
    fabs (VDOT (A0 1%nat) (A1 0%nat)) = sat_cutoff tol_double /\
    t_existsParallelPair (obb_dots tol_double A0 A1) = 0%Z /\
    t_existsParallelPair (abb_dots tol_double A1) = 1%Z) /\
   existsb separates
     (firstn 6 (obb_obb_axes tol_double (ivect 0 0 0) near_f1 near_f2 near_f3
                             near_center near_e1 near_e2 near_e3)) = false /\
   bg_sat_obb_obb tol_double (ivect 0 0 0) near_f1 near_f2 near_f3
                             near_center near_e1 near_e2 near_e3 = 0%Z /\
   bg_sat_abb_obb tol_double near_min near_max
                             near_center near_e1 near_e2 near_e3 = 1%Z) /\
  (abb_lt (ivect (-1) (-1) (-2)) (ivect 1 1 2) /\
   valid_obb tilt_e1 tilt_e2 tilt_e3 /\
   Rabs (VDOT (obb_axes (ivect 1 0 0) (ivect 0 1 0) (ivect 0 0 2) 1%nat)
              (obb_axes tilt_e1 tilt_e2 tilt_e3 0%nat)) = sat_cutoff tol_R /\
   existsb separates
     (firstn 6 (obb_obb_axes tol_R (ivect 0 0 0) (ivect 1 0 0) (ivect 0 1 0) (ivect 0 0 2)
                             (ivect (-8) 2 0) tilt_e1 tilt_e2 tilt_e3)) = false /\
   bg_sat_obb_obb tol_R (ivect 0 0 0) (ivect 1 0 0) (ivect 0 1 0) (ivect 0 0 2)
                        (ivect (-8) 2 0) tilt_e1 tilt_e2 tilt_e3 = 0%Z /\
   bg_sat_abb_obb tol_R (ivect (-1) (-1) (-2)) (ivect 1 1 2)
                        (ivect (-8) 2 0) tilt_e1 tilt_e2 tilt_e3 = 1%Z) /\
  (valid_obb (ivect 0 1 0) (ivect 1 0 0) (ivect 0 0 1) /\
   valid_obb (ivect 0 1 0) (ivect 3 0 4) (ivect (-4) 0 3) /\
   Rabs (VDOT (obb_axes (ivect 0 1 0) (ivect 1 0 0) (ivect 0 0 1) 0%nat)
              (obb_axes (ivect 0 1 0) (ivect 3 0 4) (ivect (-4) 0 3) 0%nat)) = 1 /\
   existsb separates
     (firstn 6 (obb_obb_axes tol_R (ivect 0 0 0) (ivect 0 1 0) (ivect 1 0 0) (ivect 0 0 1)
                             (ivect (-6) 0 0) (ivect 0 1 0) (ivect 3 0 4) (ivect (-4) 0 3))) = false /\
   bg_sat_obb_obb tol_R (ivect 0 0 0) (ivect 0 1 0) (ivect 1 0 0) (ivect 0 0 1)
                        (ivect (-6) 0 0) (ivect 0 1 0) (ivect 3 0 4) (ivect (-4) 0 3) = 0%Z /\
   bg_sat_obb_obb tol_double (ivect 0 0 0) (ivect 0 1 0) (ivect 1 0 0) (ivect 0 0 1)
                        (ivect (-6) 0 0) (ivect 0 1 0) (ivect 3 0 4) (ivect (-4) 0 3) = 0%Z).
Proof.
  split; [| split; [| split]].
  - intros eps mn mx c1 e1 e2 e3 A1. split.
    + apply abb_flag_iff.
    + intros Hf Hs. rewrite bg_sat_abb_obb_verdict. cbv zeta.
      apply sat_verdict_parallel; [exact Hf | exact Hs].
  - split; [unfold abb_lt, near_min, near_max, ivect; cbn; lra |].
    split; [unfold valid_obb, VDOT, MAGSQ, near_e1, near_e2, near_e3, ivect; cbn;
            repeat split; lra |].
    split; [cbv zeta; repeat split; vm_compute; reflexivity |].
    repeat split; vm_compute; reflexivity.
  - split; [unfold abb_lt, ivect; cbn; lra |].
    split; [exact tilt_valid |].
    split; [| split; [| split]].
    + tilt_eval. lra.
    + tilt_eval. reflexivity.
    + rewrite bg_sat_obb_obb_verdict. tilt_eval. reflexivity.
    + rewrite bg_sat_abb_obb_verdict. tilt_eval. reflexivity.
  - split; [unfold valid_obb, VDOT, MAGSQ, ivect; cbn; repeat split; lra |].
    split; [unfold valid_obb, VDOT, MAGSQ, ivect; cbn; repeat split; lra |].
    split; [| split; [| split]].
    + sat_unfold. mag_units. sat_ops. rabs_eval. lra.
    + sat_unfold. mag_units. mag 3%Z 0%Z 4%Z 5. mag (-4)%Z 0%Z 3%Z 5.
      sat_ops. rabs_eval. cmp_eval. reflexivity.
    + rewrite bg_sat_obb_obb_verdict. sat_unfold.
      mag_units. mag 3%Z 0%Z 4%Z 5. mag (-4)%Z 0%Z 3%Z 5.
      sat_eval_closed.
    + vm_compute. reflexivity.
Qed.

(** The bg_sat_abb_obb half of C6 at the touching boxes of C5: the flag is
    set, no face axis separates, the result is 1. *)
Lemma obb_obb_misses_parallel_pairs_witness :
  t_existsParallelPair
    (abb_dots tol_R (obb_axes (ivect 1 0 0) (ivect 0 1 0) (ivect 0 0 1))) <> 0%Z /\
  existsb separates
    (firstn 6 (abb_obb_axes tol_R (ivect (-1) (-1) (-1)) (ivect 1 1 1)
                 (ivect 2 0 0) (ivect 1 0 0) (ivect 0 1 0) (ivect 0 0 1))) = false /\
  bg_sat_abb_obb tol_R (ivect (-1) (-1) (-1)) (ivect 1 1 1)
                       (ivect 2 0 0) (ivect 1 0 0) (ivect 0 1 0) (ivect 0 0 1) = 1%Z.
Proof.
  assert (Hf : t_existsParallelPair
            (abb_dots tol_R (obb_axes (ivect 1 0 0) (ivect 0 1 0) (ivect 0 0 1))) <> 0%Z).
  { sat_unfold. mag_units. sat_ops. rabs_eval. unfold tol_R. cmp_eval. discriminate. }
  assert (Hs : existsb separates
            (firstn 6 (abb_obb_axes tol_R (ivect (-1) (-1) (-1)) (ivect 1 1 1)
                         (ivect 2 0 0) (ivect 1 0 0) (ivect 0 1 0) (ivect 0 0 1))) = false).
  { sat_unfold. mag_units. sat_ops. rabs_eval. unfold tol_R. cmp_eval. reflexivity. }
  split; [exact Hf | split; [exact Hs |]].
  exact (proj2 (proj1 obb_obb_misses_parallel_pairs tol_R _ _ _ _ _ _) Hf Hs).
Defined.



(** C8.  bg_sat_obb_obb is not invariant under rotation.  The well-formed
    boxes A (centre the origin, extent vectors (1,0,0), (0,1,0), (0,0,1)) and
    B (centre (5,0,0), extent vectors (10,0,0), (0,1,0), (0,0,1)) give 1;
    after the quarter turn about z applied to both centres and all six
    extent vectors the result is 0, over the reals and on binary64, for every
    tolerance. *)
Theorem obb_obb_not_rotation_invariant :
  is_rotation rot_z90 /\
  valid_obb (ivect 1 0 0) (ivect 0 1 0) (ivect 0 0 1) /\
  valid_obb (ivect 10 0 0) (ivect 0 1 0) (ivect 0 0 1) /\
  (forall eps : R,
     bg_sat_obb_obb eps (ivect 0 0 0) (ivect 1 0 0) (ivect 0 1 0) (ivect 0 0 1)
                        (ivect 5 0 0) (ivect 10 0 0) (ivect 0 1 0) (ivect 0 0 1) = 1%Z /\
     bg_sat_obb_obb eps
       (mat_apply rot_z90 (ivect 0 0 0)) (mat_apply rot_z90 (ivect 1 0 0))
       (mat_apply rot_z90 (ivect 0 1 0)) (mat_apply rot_z90 (ivect 0 0 1))
       (mat_apply rot_z90 (ivect 5 0 0)) (mat_apply rot_z90 (ivect 10 0 0))
       (mat_apply rot_z90 (ivect 0 1 0)) (mat_apply rot_z90 (ivect 0 0 1)) = 0%Z) /\
  (forall eps : float,
     bg_sat_obb_obb eps (ivect 0 0 0) (ivect 1 0 0) (ivect 0 1 0) (ivect 0 0 1)
                        (ivect 5 0 0) (ivect 10 0 0) (ivect 0 1 0) (ivect 0 0 1) = 1%Z /\
     bg_sat_obb_obb eps (ivect 0 0 0) (ivect 0 1 0) (ivect (-1) 0 0) (ivect 0 0 1)
                        (ivect 0 5 0) (ivect 0 10 0) (ivect (-1) 0 0) (ivect 0 0 1) = 0%Z).
Proof.
  split; [exact rot_z90_rotation |].
  split; [unfold valid_obb, VDOT, MAGSQ, ivect; cbn; repeat split; lra |].
  split; [unfold valid_obb, VDOT, MAGSQ, ivect; cbn; repeat split; lra |].
  split.
  - intros eps. split.
    + rewrite bg_sat_obb_obb_verdict. sat_unfold. mag_units. mag 10%Z 0%Z 0%Z 10. sat_eval.
    + rewrite !rot_z90_ivect. cbn [Z.opp].
      rewrite bg_sat_obb_obb_verdict. sat_unfold.
      mag_units. mag (-1)%Z 0%Z 0%Z 1. mag 0%Z 10%Z 0%Z 10. sat_eval.
  - intros eps. split; vm_compute;
      try match goal with |- (if ?c then _ else _) = _ => destruct c end; reflexivity.
Qed.

(** C9.  bg_sat_obb_obb misses a separation along a face normal.  The boxes
    A (centre the origin, extent vectors (0,6,0), (12,0,0), (0,0,12)) and B
    (centre (6,33,12), extent vectors (2,4,-4), (16,8,16), (12,-12,-6), of
    lengths 6, 24 and 18) are well formed.  The face normal A0[0] of A is
    (0,1,0); every point of A has y <= 6 and every point of B has y >= 9:
    the boxes are separated along A0[0] with a gap of 3.  bg_sat_obb_obb A B
    returns 1, over the reals and on binary64, for every tolerance: on that
    axis r = 33 exceeds the sum of the projected radii 6 + 24, but line 316
    fills absDot01[0][i] with |A1[i][0]| and the code compares r = 33 with
    r01 = 6 + 30 = 36; no other test separates.  bg_sat_abb_obb on the same
    boxes (A as min = (-12,-6,-12), max = (12,6,12)) returns 0, as both
    predicates do on the separated boxes of the spec (centres (0,0,0) and
    (10,0,0), where A0[0] is the world x axis). *)
Theorem obb_obb_misses_face_separation :
  valid_obb (ivect 0 6 0) (ivect 12 0 0) (ivect 0 0 12) /\
  valid_obb (ivect 2 4 (-4)) (ivect 16 8 16) (ivect 12 (-12) (-6)) /\
  obb_axes (ivect 0 6 0) (ivect 12 0 0) (ivect 0 0 12) 0%nat = (ivect 0 1 0 : vect_t R) /\
  (forall p, in_obb (ivect 0 0 0) (ivect 0 6 0) (ivect 12 0 0) (ivect 0 0 12) p ->
             vY p <= 6) /\
  (forall p, in_obb (ivect 6 33 12) (ivect 2 4 (-4)) (ivect 16 8 16) (ivect 12 (-12) (-6)) p ->
             9 <= vY p) /\
  (forall eps : R,
     bg_sat_obb_obb eps (ivect 0 0 0) (ivect 0 6 0) (ivect 12 0 0) (ivect 0 0 12)
                        (ivect 6 33 12) (ivect 2 4 (-4)) (ivect 16 8 16) (ivect 12 (-12) (-6))
     = 1%Z /\
     bg_sat_abb_obb eps (ivect (-12) (-6) (-12)) (ivect 12 6 12)
                        (ivect 6 33 12) (ivect 2 4 (-4)) (ivect 16 8 16) (ivect 12 (-12) (-6))
     = 0%Z) /\
  (forall eps : float,
     bg_sat_obb_obb eps (ivect 0 0 0) (ivect 0 6 0) (ivect 12 0 0) (ivect 0 0 12)
                        (ivect 6 33 12) (ivect 2 4 (-4)) (ivect 16 8 16) (ivect 12 (-12) (-6))
     = 1%Z /\
     bg_sat_abb_obb eps (ivect (-12) (-6) (-12)) (ivect 12 6 12)
                        (ivect 6 33 12) (ivect 2 4 (-4)) (ivect 16 8 16) (ivect 12 (-12) (-6))
     = 0%Z) /\
  (forall eps : R,
     bg_sat_obb_obb eps (ivect 0 0 0) (ivect 1 0 0) (ivect 0 1 0) (ivect 0 0 1)
                        (ivect 10 0 0) (ivect 1 0 0) (ivect 0 1 0) (ivect 0 0 1) = 0%Z /\
     bg_sat_abb_obb eps (ivect (-1) (-1) (-1)) (ivect 1 1 1)
                        (ivect 10 0 0) (ivect 1 0 0) (ivect 0 1 0) (ivect 0 0 1) = 0%Z) /\
  (forall eps : float,
     bg_sat_obb_obb eps (ivect 0 0 0) (ivect 1 0 0) (ivect 0 1 0) (ivect 0 0 1)
                        (ivect 10 0 0) (ivect 1 0 0) (ivect 0 1 0) (ivect 0 0 1) = 0%Z /\
     bg_sat_abb_obb eps (ivect (-1) (-1) (-1)) (ivect 1 1 1)
                        (ivect 10 0 0) (ivect 1 0 0) (ivect 0 1 0) (ivect 0 0 1) = 0%Z).
Proof.
  split; [unfold valid_obb, VDOT, MAGSQ, ivect; cbn; repeat split; lra |].
  split; [unfold valid_obb, VDOT, MAGSQ, ivect; cbn; repeat split; lra |].
  split; [| split; [| split; [| split; [| split; [| split]]]]].
  - sat_unfold. mag 0%Z 6%Z 0%Z 6. sat_ops. f_equal; lra.
  - intros p (s1 & s2 & s3 & Hs1 & Hs2 & Hs3 & ->).
    unfold vadd, vscale, ivect. cbn. lra.
  - intros p (s1 & s2 & s3 & Hs1 & Hs2 & Hs3 & ->).
    unfold vadd, vscale, ivect. cbn. lra.
  - intros eps. split.
    + rewrite bg_sat_obb_obb_verdict. sat_unfold.
      mag 0%Z 6%Z 0%Z 6. mag 12%Z 0%Z 0%Z 12. mag 0%Z 0%Z 12%Z 12.
      mag 2%Z 4%Z (-4)%Z 6. mag 16%Z 8%Z 16%Z 24. mag 12%Z (-12)%Z (-6)%Z 18.
      sat_eval.
    + rewrite bg_sat_abb_obb_verdict. sat_unfold.
      mag 2%Z 4%Z (-4)%Z 6. mag 16%Z 8%Z 16%Z 24. mag 12%Z (-12)%Z (-6)%Z 18.
      sat_eval.
  - intros eps. split; vm_compute;
      repeat match goal with |- context [if ?c then _ else _] => destruct c end; reflexivity.
  - intros eps. split.
    + rewrite bg_sat_obb_obb_verdict. sat_unfold. mag_units. sat_eval.
    + rewrite bg_sat_abb_obb_verdict. sat_unfold. mag_units. sat_eval.
  - intros eps. split; vm_compute; reflexivity.
Qed.

(** C10.  Whatever the scalar type and the eight (six) input vectors, well
    formed or not, bg_sat_abb_obb and bg_sat_obb_obb return 0 or 1. *)
Theorem bg_sat_returns_0_or_1 :
  forall (fastf_t : Type) (ops : fastf_ops fastf_t) (eps : fastf_t)
         (mn mx c0 f1 f2 f3 c1 e1 e2 e3 : vect_t fastf_t),
    (bg_sat_abb_obb eps mn mx c1 e1 e2 e3 = 0%Z \/
     bg_sat_abb_obb eps mn mx c1 e1 e2 e3 = 1%Z) /\
    (bg_sat_obb_obb eps c0 f1 f2 f3 c1 e1 e2 e3 = 0%Z \/
     bg_sat_obb_obb eps c0 f1 f2 f3 c1 e1 e2 e3 = 1%Z).
Proof.
  intros. rewrite bg_sat_abb_obb_verdict, bg_sat_obb_obb_verdict.
  split; apply sat_verdict_0_or_1.
Qed.


(** * Further properties of the two predicates *)

(** ** Tests as lists *)



(** ** Boxes with a common centre *)













(** ** NaN on binary64 *)

Lemma Prim2SF_nan : FloatOps.Prim2SF PrimFloat.nan = SpecFloat.S754_nan.
Proof. reflexivity. Qed.

Lemma SFcompare_refl (s : SpecFloat.spec_float) :
  s <> SpecFloat.S754_nan -> SpecFloat.SFcompare s s = Some Eq.
Proof.
  destruct s as [b | b | | b m e]; intros H; cbn.
  - reflexivity.
  - now destruct b.
  - now elim H.
  - rewrite Z.compare_refl.
    assert (E : Pos.compare_cont Eq m m = Eq) by apply Pos.compare_refl.
    destruct b; rewrite E; reflexivity.
Qed.

(** A double is a NaN exactly when it is the NaN of the model. *)
Lemma is_nan_eq (x : PrimFloat.float) : PrimFloat.is_nan x = true -> x = PrimFloat.nan.
Proof.
  unfold PrimFloat.is_nan. rewrite FloatAxioms.eqb_spec. intros H.
  apply FloatAxioms.Prim2SF_inj. rewrite Prim2SF_nan.
  destruct (FloatOps.Prim2SF x) eqn:E; try reflexivity; exfalso;
    unfold SpecFloat.SFeqb in H; rewrite SFcompare_refl in H by discriminate;
    discriminate.
Qed.

Lemma nan_sub_l (y : PrimFloat.float) : PrimFloat.sub PrimFloat.nan y = PrimFloat.nan.
Proof.
  apply FloatAxioms.Prim2SF_inj. rewrite FloatAxioms.sub_spec, Prim2SF_nan. reflexivity.
Qed.

Lemma nan_sub_r (x : PrimFloat.float) : PrimFloat.sub x PrimFloat.nan = PrimFloat.nan.
Proof.
  apply FloatAxioms.Prim2SF_inj. rewrite FloatAxioms.sub_spec, Prim2SF_nan.
  now destruct (FloatOps.Prim2SF x).
Qed.

Lemma nan_add_l (y : PrimFloat.float) : PrimFloat.add PrimFloat.nan y = PrimFloat.nan.
Proof.
  apply FloatAxioms.Prim2SF_inj. rewrite FloatAxioms.add_spec, Prim2SF_nan. reflexivity.
Qed.

Lemma nan_add_r (x : PrimFloat.float) : PrimFloat.add x PrimFloat.nan = PrimFloat.nan.
Proof.
  apply FloatAxioms.Prim2SF_inj. rewrite FloatAxioms.add_spec, Prim2SF_nan.
  now destruct (FloatOps.Prim2SF x).
Qed.

Lemma nan_mul_l (y : PrimFloat.float) : PrimFloat.mul PrimFloat.nan y = PrimFloat.nan.
Proof.
  apply FloatAxioms.Prim2SF_inj. rewrite FloatAxioms.mul_spec, Prim2SF_nan. reflexivity.
Qed.

Lemma nan_mul_r (x : PrimFloat.float) : PrimFloat.mul x PrimFloat.nan = PrimFloat.nan.
Proof.
  apply FloatAxioms.Prim2SF_inj. rewrite FloatAxioms.mul_spec, Prim2SF_nan.
  now destruct (FloatOps.Prim2SF x).
Qed.

Lemma nan_abs : PrimFloat.abs PrimFloat.nan = PrimFloat.nan.
Proof. reflexivity. Qed.

Lemma nan_not_gt (x : PrimFloat.float) : PrimFloat.ltb x PrimFloat.nan = false.
Proof.
  rewrite FloatAxioms.ltb_spec, Prim2SF_nan. unfold SpecFloat.SFltb.
  now destruct (FloatOps.Prim2SF x).
Qed.

Ltac float_ops :=
  change (@fadd PrimFloat.float fastf_double) with PrimFloat.add;
  change (@fsub PrimFloat.float fastf_double) with PrimFloat.sub;
  change (@fmul PrimFloat.float fastf_double) with PrimFloat.mul;
  change (@fabs PrimFloat.float fastf_double) with PrimFloat.abs;
  cbv beta.

Ltac nan_simpl :=
  repeat first
    [ rewrite nan_sub_l | rewrite nan_sub_r | rewrite nan_mul_l | rewrite nan_mul_r
    | rewrite nan_add_l | rewrite nan_add_r | rewrite nan_abs ].

(** No test whose [r] is a NaN separates. *)
Lemma run_tests_nan (l : list (PrimFloat.float * PrimFloat.float)) (k : Z) :
  Forall (fun ax => fst ax = PrimFloat.nan) l -> run_tests l k = k.
Proof.
  induction 1 as [|[r r01] l Hr _ IH]; cbn [run_tests]; [reflexivity |].
  cbn [fst] in Hr. subst r. unfold separates. cbn [fst snd].
  change (@fgt PrimFloat.float fastf_double PrimFloat.nan r01)
    with (PrimFloat.ltb r01 PrimFloat.nan).
  rewrite nan_not_gt. exact IH.
Qed.

Lemma face_axes_nan (P D E0 E1 : vect_t PrimFloat.float) (A1 : nat -> vect_t PrimFloat.float)
    (ab : table PrimFloat.float) :
  P = mkvect PrimFloat.nan PrimFloat.nan PrimFloat.nan ->
  D = mkvect PrimFloat.nan PrimFloat.nan PrimFloat.nan ->
  Forall (fun ax => fst ax = PrimFloat.nan) (face_axes P D E0 E1 A1 ab).
Proof.
  intros -> ->. unfold face_axes, VDOT. cbn [vidx vX vY vZ]. float_ops.
  repeat (apply Forall_cons; [cbn [fst]; nan_simpl; reflexivity |]).
  apply Forall_nil.
Qed.

Lemma edge_axes_nan (P E0 E1 : vect_t PrimFloat.float) (d ab : table PrimFloat.float) :
  P = mkvect PrimFloat.nan PrimFloat.nan PrimFloat.nan ->
  Forall (fun ax => fst ax = PrimFloat.nan) (edge_axes P E0 E1 d ab).
Proof.
  intros ->. unfold edge_axes. cbn [vidx vX vY vZ]. float_ops.
  repeat (apply Forall_cons; [cbn [fst]; nan_simpl; reflexivity |]).
  apply Forall_nil.
Qed.

Lemma sat_verdict_nan (f e : list (PrimFloat.float * PrimFloat.float)) (flag : Z) :
  Forall (fun ax => fst ax = PrimFloat.nan) f ->
  Forall (fun ax => fst ax = PrimFloat.nan) e ->
  sat_verdict f flag e = 1%Z.
Proof.
  intros Hf He. unfold sat_verdict. rewrite (run_tests_nan f) by exact Hf.
  destruct (negb _); [reflexivity | now apply run_tests_nan].
Qed.

(** X11.  On binary64, a box centre whose three coordinates are NaN makes
    every test's r a NaN, every comparison r > r01 false, and the result 1:
    neither predicate ever reports a separation for such a centre (the
    oriented box's centre in bg_sat_abb_obb, either centre in
    bg_sat_obb_obb), whatever the other arguments. *)
Theorem nan_centre_never_separates :
  forall (eps : PrimFloat.float) (mn mx c0 f1 f2 f3 c e1 e2 e3 : vect_t PrimFloat.float),
    PrimFloat.is_nan (vX c) = true ->
    PrimFloat.is_nan (vY c) = true ->
    PrimFloat.is_nan (vZ c) = true ->
    bg_sat_abb_obb eps mn mx c e1 e2 e3 = 1%Z /\
    bg_sat_obb_obb eps c0 f1 f2 f3 c e1 e2 e3 = 1%Z /\
    bg_sat_obb_obb eps c e1 e2 e3 c0 f1 f2 f3 = 1%Z.
Proof.
  intros eps mn mx c0 f1 f2 f3 [x y z] e1 e2 e3 Hx Hy Hz. cbn [vX vY vZ] in *.
  apply is_nan_eq in Hx, Hy, Hz. subst x y z.
  assert (HD : forall v : vect_t PrimFloat.float,
            VSUB2 (mkvect PrimFloat.nan PrimFloat.nan PrimFloat.nan) v
            = mkvect PrimFloat.nan PrimFloat.nan PrimFloat.nan).
  { intros v. unfold VSUB2. cbn [vX vY vZ]. float_ops. now nan_simpl. }
  assert (HD' : forall v : vect_t PrimFloat.float,
            VSUB2 v (mkvect PrimFloat.nan PrimFloat.nan PrimFloat.nan)
            = mkvect PrimFloat.nan PrimFloat.nan PrimFloat.nan).
  { intros v. unfold VSUB2. cbn [vX vY vZ]. float_ops. now nan_simpl. }
  assert (HP : forall A0 : nat -> vect_t PrimFloat.float,
            obb_dotDA0 (mkvect PrimFloat.nan PrimFloat.nan PrimFloat.nan) A0
            = mkvect PrimFloat.nan PrimFloat.nan PrimFloat.nan).
  { intros A0. unfold obb_dotDA0, VDOT. cbn [vX vY vZ]. float_ops. now nan_simpl. }
  split; [| split].
  - rewrite bg_sat_abb_obb_verdict. cbv zeta. rewrite HD.
    apply sat_verdict_nan; [apply face_axes_nan | apply edge_axes_nan]; reflexivity.
  - rewrite bg_sat_obb_obb_verdict. cbv zeta. rewrite HD, HP.
    apply sat_verdict_nan; [apply face_axes_nan | apply edge_axes_nan]; reflexivity.
  - rewrite bg_sat_obb_obb_verdict. cbv zeta. rewrite HD', HP.
    apply sat_verdict_nan; [apply face_axes_nan | apply edge_axes_nan]; reflexivity.
Qed.

(** X11 at the NaN centre itself, against unit boxes. *)
Lemma nan_centre_never_separates_witness :
  bg_sat_abb_obb tol_double (ivect (-1) (-1) (-1)) (ivect 1 1 1)
                 (mkvect PrimFloat.nan PrimFloat.nan PrimFloat.nan)
                 (ivect 1 0 0) (ivect 0 1 0) (ivect 0 0 1) = 1%Z.
Proof.
  exact (proj1 (nan_centre_never_separates tol_double (ivect (-1) (-1) (-1)) (ivect 1 1 1)
                  (ivect 0 0 0) (ivect 1 0 0) (ivect 0 1 0) (ivect 0 0 1)
                  (mkvect PrimFloat.nan PrimFloat.nan PrimFloat.nan)
                  (ivect 1 0 0) (ivect 0 1 0) (ivect 0 0 1)
                  eq_refl eq_refl eq_refl)).
Defined.

(** ** binary64: the sign of an extent vector *)


Import SpecFloat.

Section SpecLevel.
Variables (prec emax : Z).

Lemma binary_round_aux_opp (s : bool) (m e : Z) (l : location) :
  SFopp (binary_round_aux prec emax s m e l) = binary_round_aux prec emax (negb s) m e l.
Proof.
  unfold binary_round_aux.
  destruct (shr_fexp prec emax m e l) as [mrs' e'].
  destruct (shr_fexp prec emax _ e' loc_Exact) as [mrs'' e''].
  destruct (shr_m mrs''); try reflexivity.
  destruct (Z.leb e'' (emax - prec)); reflexivity.
Qed.

Lemma binary_round_opp (s : bool) (m : positive) (e : Z) :
  SFopp (binary_round prec emax s m e) = binary_round prec emax (negb s) m e.
Proof.
  unfold binary_round. destruct (shl_align _ _ _) as [mz ez]. apply binary_round_aux_opp.
Qed.

Lemma sf_eqz_refl (s : spec_float) : sf_eqz s s.
Proof. destruct s; cbn; auto. Qed.

Lemma sf_eqz_sym (s t : spec_float) : sf_eqz s t -> sf_eqz t s.
Proof. destruct s, t; cbn; auto; congruence. Qed.

Lemma sf_eqz_trans (s t u : spec_float) : sf_eqz s t -> sf_eqz t u -> sf_eqz s u.
Proof. destruct s, t, u; cbn; auto; try congruence; try discriminate. Qed.

Lemma sf_eqz_eq (s t : spec_float) : s = t -> sf_eqz s t.
Proof. intros ->. apply sf_eqz_refl. Qed.

Lemma binary_normalize_opp (m e : Z) :
  sf_eqz (binary_normalize prec emax (- m) e false)
         (SFopp (binary_normalize prec emax m e false)).
Proof.
  destruct m as [|p|p]; cbn [Z.opp binary_normalize].
  - cbn. exact I.
  - rewrite binary_round_opp. apply sf_eqz_refl.
  - rewrite binary_round_opp. apply sf_eqz_refl.
Qed.

Lemma cond_Zopp_negb (s : bool) (m : Z) : cond_Zopp (negb s) m = (- cond_Zopp s m)%Z.
Proof. destruct s; cbn; lia. Qed.

Lemma SFopp_involutive (x : spec_float) : SFopp (SFopp x) = x.
Proof. destruct x as [b | b | | b m e]; cbn; try rewrite negb_involutive; reflexivity. Qed.

Lemma SFabs_opp (x : spec_float) : SFabs (SFopp x) = SFabs x.
Proof. destruct x; reflexivity. Qed.

Lemma SFabs_eqz (x y : spec_float) : sf_eqz x y -> SFabs x = SFabs y.
Proof. destruct x, y; cbn; intros H; try reflexivity; try discriminate; now inversion H. Qed.

Lemma SFmul_opp_l (x y : spec_float) :
  SFmul prec emax (SFopp x) y = SFopp (SFmul prec emax x y).
Proof.
  destruct x as [sx | sx | | sx mx ex], y as [sy | sy | | sy my ey]; cbn;
    try reflexivity; try (destruct sx, sy; reflexivity).
  rewrite binary_round_aux_opp. now destruct sx, sy.
Qed.

Lemma SFmul_opp_r (x y : spec_float) :
  SFmul prec emax x (SFopp y) = SFopp (SFmul prec emax x y).
Proof.
  destruct x as [sx | sx | | sx mx ex], y as [sy | sy | | sy my ey]; cbn;
    try reflexivity; try (destruct sx, sy; reflexivity).
  rewrite binary_round_aux_opp. now destruct sx, sy.
Qed.

Lemma SFdiv_opp_l (x y : spec_float) :
  SFdiv prec emax (SFopp x) y = SFopp (SFdiv prec emax x y).
Proof.
  destruct x as [sx | sx | | sx mx ex], y as [sy | sy | | sy my ey]; cbn;
    try reflexivity; try (destruct sx, sy; reflexivity).
  destruct (SFdiv_core_binary _ _ _ _ _ _) as [[mz ez] lz].
  rewrite binary_round_aux_opp. now destruct sx, sy.
Qed.

Lemma SFadd_opp (x y : spec_float) :
  sf_eqz (SFadd prec emax (SFopp x) (SFopp y)) (SFopp (SFadd prec emax x y)).
Proof.
  destruct x as [sx | sx | | sx mx ex], y as [sy | sy | | sy my ey];
    try (cbn; exact I); try (cbn; reflexivity);
    try (destruct sx, sy; cbn; auto; fail).
  cbn [SFopp SFadd]. rewrite !cond_Zopp_negb.
  rewrite <- Z.opp_add_distr. apply binary_normalize_opp.
Qed.

Lemma SFsub_opp (x y : spec_float) :
  sf_eqz (SFsub prec emax (SFopp x) (SFopp y)) (SFopp (SFsub prec emax x y)).
Proof.
  destruct x as [sx | sx | | sx mx ex], y as [sy | sy | | sy my ey];
    try (cbn; exact I); try (cbn; reflexivity);
    try (destruct sx, sy; cbn; auto; fail).
  cbn [SFopp SFsub]. rewrite !cond_Zopp_negb.
  replace (- cond_Zopp sx (Z.pos (fst (shl_align mx ex (Z.min ex ey))))
           - - cond_Zopp sy (Z.pos (fst (shl_align my ey (Z.min ex ey)))))%Z
    with (- (cond_Zopp sx (Z.pos (fst (shl_align mx ex (Z.min ex ey))))
             - cond_Zopp sy (Z.pos (fst (shl_align my ey (Z.min ex ey))))))%Z by lia.
  apply binary_normalize_opp.
Qed.

Ltac eqz_cases x x' Hx :=
  destruct x as [? | ? | | ? ? ?], x' as [? | ? | | ? ? ?]; cbn in Hx;
  try discriminate Hx; try (inversion Hx; subst; clear Hx).

Ltac eqz_close :=
  cbn;
  repeat match goal with
  | b : bool |- _ => destruct b
  end;
  cbn; first [ exact I | reflexivity | apply sf_eqz_refl ].

Lemma SFadd_eqz (x x' y y' : spec_float) :
  sf_eqz x x' -> sf_eqz y y' ->
  sf_eqz (SFadd prec emax x y) (SFadd prec emax x' y').
Proof.
  intros Hx Hy. eqz_cases x x' Hx; eqz_cases y y' Hy;
    first [ apply sf_eqz_refl | eqz_close ].
Qed.

Lemma SFsub_eqz (x x' y y' : spec_float) :
  sf_eqz x x' -> sf_eqz y y' ->
  sf_eqz (SFsub prec emax x y) (SFsub prec emax x' y').
Proof.
  intros Hx Hy. eqz_cases x x' Hx; eqz_cases y y' Hy;
    first [ apply sf_eqz_refl | eqz_close ].
Qed.

Lemma SFmul_eqz (x x' y y' : spec_float) :
  sf_eqz x x' -> sf_eqz y y' ->
  sf_eqz (SFmul prec emax x y) (SFmul prec emax x' y').
Proof.
  intros Hx Hy. eqz_cases x x' Hx; eqz_cases y y' Hy;
    first [ apply sf_eqz_refl | eqz_close ].
Qed.

Lemma SFopp_eqz (x x' : spec_float) : sf_eqz x x' -> sf_eqz (SFopp x) (SFopp x').
Proof. intros Hx. eqz_cases x x' Hx; first [ apply sf_eqz_refl | eqz_close ]. Qed.

End SpecLevel.


(** *** On the primitive floats *)

Lemma feqz_refl (x : PrimFloat.float) : feqz x x.
Proof. apply sf_eqz_refl. Qed.

Lemma feqz_sym (x y : PrimFloat.float) : feqz x y -> feqz y x.
Proof. apply sf_eqz_sym. Qed.

Lemma feqz_trans (x y z : PrimFloat.float) : feqz x y -> feqz y z -> feqz x z.
Proof. apply sf_eqz_trans. Qed.

Lemma fflip_opp (x : PrimFloat.float) : fflip (PrimFloat.opp x) x.
Proof. apply feqz_refl. Qed.

Lemma feqz_add (a a' b b' : PrimFloat.float) :
  feqz a a' -> feqz b b' -> feqz (PrimFloat.add a b) (PrimFloat.add a' b').
Proof. unfold feqz. rewrite !FloatAxioms.add_spec. apply SFadd_eqz. Qed.

Lemma feqz_sub (a a' b b' : PrimFloat.float) :
  feqz a a' -> feqz b b' -> feqz (PrimFloat.sub a b) (PrimFloat.sub a' b').
Proof. unfold feqz. rewrite !FloatAxioms.sub_spec. apply SFsub_eqz. Qed.

Lemma feqz_mul (a a' b b' : PrimFloat.float) :
  feqz a a' -> feqz b b' -> feqz (PrimFloat.mul a b) (PrimFloat.mul a' b').
Proof. unfold feqz. rewrite !FloatAxioms.mul_spec. apply SFmul_eqz. Qed.

Lemma fflip_add (a a' b b' : PrimFloat.float) :
  fflip a a' -> fflip b b' -> fflip (PrimFloat.add a b) (PrimFloat.add a' b').
Proof.
  unfold fflip, feqz. rewrite !FloatAxioms.opp_spec, !FloatAxioms.add_spec. intros Ha Hb.
  eapply sf_eqz_trans; [apply SFadd_eqz; eassumption | apply SFadd_opp].
Qed.

Lemma fflip_sub (a a' b b' : PrimFloat.float) :
  fflip a a' -> fflip b b' -> fflip (PrimFloat.sub a b) (PrimFloat.sub a' b').
Proof.
  unfold fflip, feqz. rewrite !FloatAxioms.opp_spec, !FloatAxioms.sub_spec. intros Ha Hb.
  eapply sf_eqz_trans; [apply SFsub_eqz; eassumption | apply SFsub_opp].
Qed.

Lemma fflip_mul_l (a a' b b' : PrimFloat.float) :
  fflip a a' -> feqz b b' -> fflip (PrimFloat.mul a b) (PrimFloat.mul a' b').
Proof.
  unfold fflip, feqz. rewrite !FloatAxioms.opp_spec, !FloatAxioms.mul_spec. unfold FloatAxioms.SF64mul. intros Ha Hb.
  rewrite <- SFmul_opp_l. apply SFmul_eqz; assumption.
Qed.

Lemma fflip_mul_r (a a' b b' : PrimFloat.float) :
  feqz a a' -> fflip b b' -> fflip (PrimFloat.mul a b) (PrimFloat.mul a' b').
Proof.
  unfold fflip, feqz. rewrite !FloatAxioms.opp_spec, !FloatAxioms.mul_spec. unfold FloatAxioms.SF64mul. intros Ha Hb.
  rewrite <- SFmul_opp_r. apply SFmul_eqz; assumption.
Qed.

Lemma feqz_mul_flip (a a' b b' : PrimFloat.float) :
  fflip a a' -> fflip b b' -> feqz (PrimFloat.mul a b) (PrimFloat.mul a' b').
Proof.
  unfold fflip, feqz. rewrite !FloatAxioms.opp_spec, !FloatAxioms.mul_spec. unfold FloatAxioms.SF64mul. intros Ha Hb.
  replace (SFmul FloatOps.prec FloatOps.emax (FloatOps.Prim2SF a') (FloatOps.Prim2SF b'))
    with (SFmul FloatOps.prec FloatOps.emax (SFopp (FloatOps.Prim2SF a'))
                (SFopp (FloatOps.Prim2SF b')))
    by (rewrite SFmul_opp_l, SFmul_opp_r; apply SFopp_involutive).
  apply SFmul_eqz; assumption.
Qed.

Lemma abs_feqz (a a' : PrimFloat.float) : feqz a a' -> PrimFloat.abs a = PrimFloat.abs a'.
Proof.
  intros H. apply FloatAxioms.Prim2SF_inj. rewrite !FloatAxioms.abs_spec.
  apply SFabs_eqz, H.
Qed.

Lemma abs_fflip (a a' : PrimFloat.float) : fflip a a' -> PrimFloat.abs a = PrimFloat.abs a'.
Proof.
  intros H. apply FloatAxioms.Prim2SF_inj. rewrite !FloatAxioms.abs_spec.
  rewrite (SFabs_eqz _ _ H), FloatAxioms.opp_spec. apply SFabs_opp.
Qed.

Lemma mul_opp_opp (x y : PrimFloat.float) :
  PrimFloat.mul (PrimFloat.opp x) (PrimFloat.opp y) = PrimFloat.mul x y.
Proof.
  apply FloatAxioms.Prim2SF_inj.
  rewrite !FloatAxioms.mul_spec, !FloatAxioms.opp_spec. unfold FloatAxioms.SF64mul.
  rewrite SFmul_opp_l, SFmul_opp_r. apply SFopp_involutive.
Qed.

Lemma div_opp_l (x m : PrimFloat.float) :
  PrimFloat.div (PrimFloat.opp x) m = PrimFloat.opp (PrimFloat.div x m).
Proof.
  apply FloatAxioms.Prim2SF_inj.
  rewrite FloatAxioms.opp_spec, !FloatAxioms.div_spec, FloatAxioms.opp_spec.
  apply SFdiv_opp_l.
Qed.

Ltac float_prims :=
  change (@fadd PrimFloat.float fastf_double) with PrimFloat.add;
  change (@fsub PrimFloat.float fastf_double) with PrimFloat.sub;
  change (@fmul PrimFloat.float fastf_double) with PrimFloat.mul;
  change (@fdiv PrimFloat.float fastf_double) with PrimFloat.div;
  change (@fsqrt PrimFloat.float fastf_double) with PrimFloat.sqrt;
  change (@fabs PrimFloat.float fastf_double) with PrimFloat.abs;
  cbv beta.

(** *** Opposite vectors *)

Lemma MAGNITUDE_vneg (v : vect_t PrimFloat.float) : MAGNITUDE (vneg v) = MAGNITUDE v.
Proof.
  unfold MAGNITUDE, MAGSQ, vneg. cbn [vX vY vZ]. float_prims.
  now rewrite !mul_opp_opp.
Qed.

Lemma VUNITIZE_vneg (v : vect_t PrimFloat.float) : VUNITIZE (vneg v) = vneg (VUNITIZE v).
Proof.
  unfold VUNITIZE. cbv zeta. rewrite MAGNITUDE_vneg.
  unfold vneg. cbn [vX vY vZ]. float_prims. now rewrite !div_opp_l.
Qed.

Lemma fflip_VDOT_r (a b : vect_t PrimFloat.float) : fflip (VDOT a (vneg b)) (VDOT a b).
Proof.
  unfold VDOT, vneg. cbn [vX vY vZ]. float_prims.
  repeat apply fflip_add; apply fflip_mul_r; auto using feqz_refl, fflip_opp.
Qed.

Lemma fflip_VDOT_l (a b : vect_t PrimFloat.float) : fflip (VDOT (vneg a) b) (VDOT a b).
Proof.
  unfold VDOT, vneg. cbn [vX vY vZ]. float_prims.
  repeat apply fflip_add; apply fflip_mul_l; auto using feqz_refl, fflip_opp.
Qed.

Lemma abs_opp (x : PrimFloat.float) : PrimFloat.abs (PrimFloat.opp x) = PrimFloat.abs x.
Proof. apply abs_fflip, fflip_opp. Qed.

Lemma abs_VDOT_vneg_r (a b : vect_t PrimFloat.float) :
  PrimFloat.abs (VDOT a (vneg b)) = PrimFloat.abs (VDOT a b).
Proof. apply abs_fflip, fflip_VDOT_r. Qed.

Lemma abs_VDOT_vneg_l (a b : vect_t PrimFloat.float) :
  PrimFloat.abs (VDOT (vneg a) b) = PrimFloat.abs (VDOT a b).
Proof. apply abs_fflip, fflip_VDOT_l. Qed.

(** [x ~ x'] or [x ~ - x'] for two expressions of the same shape. *)
Ltac fsign :=
  lazymatch goal with
  | |- feqz ?x ?x => apply feqz_refl
  | |- fflip (VDOT _ (vneg _)) _ => apply fflip_VDOT_r
  | |- fflip (VDOT (vneg _) _) _ => apply fflip_VDOT_l
  | |- fflip (PrimFloat.opp _) _ => apply fflip_opp
  | |- fflip (PrimFloat.sub _ _) (PrimFloat.sub _ _) => apply fflip_sub; fsign
  | |- fflip (PrimFloat.add _ _) (PrimFloat.add _ _) => apply fflip_add; fsign
  | |- fflip (PrimFloat.mul _ _) (PrimFloat.mul _ _) =>
      first [ apply fflip_mul_l; fsign | apply fflip_mul_r; fsign ]
  | |- feqz (PrimFloat.sub _ _) (PrimFloat.sub _ _) => apply feqz_sub; fsign
  | |- feqz (PrimFloat.add _ _) (PrimFloat.add _ _) => apply feqz_add; fsign
  | |- feqz (PrimFloat.mul _ _) (PrimFloat.mul _ _) =>
      first [ apply feqz_mul; fsign | apply feqz_mul_flip; fsign ]
  end.

Ltac same_abs :=
  first [ reflexivity | apply abs_fflip; fsign | apply abs_feqz; fsign ].

Ltac same_list :=
  repeat (apply (f_equal2 (@cons (PrimFloat.float * PrimFloat.float)));
          [apply (f_equal2 (@pair PrimFloat.float PrimFloat.float));
           [same_abs | reflexivity] |]);
  reflexivity.

Lemma sat_verdict_eq {T} {ops : fastf_ops T} (f f' e e' : list (T * T)) (flag flag' : Z) :
  f = f' -> flag = flag' -> e = e' -> sat_verdict f flag e = sat_verdict f' flag' e'.
Proof. now intros -> -> ->. Qed.

Ltac sign_unfold :=
  cbv beta iota zeta delta
    [face_axes edge_axes obb_dots obb_row obb_row0 abb_dots abb_row for3 fold_left seq
     tset t_dot01 t_absDot01 t_existsParallelPair dots_init Nat.eqb andb vidx arr3
     obb_dotDA0];
  cbn [vX vY vZ];
  change (vX (vneg ?v)) with (PrimFloat.opp (vX v));
  change (vY (vneg ?v)) with (PrimFloat.opp (vY v));
  change (vZ (vneg ?v)) with (PrimFloat.opp (vZ v));
  float_prims;
  rewrite ?abs_VDOT_vneg_r, ?abs_VDOT_vneg_l, ?abs_opp.

Ltac sign_normal e1 e2 e3 :=
  unfold obb_halfext, obb_axes, VSET;
  rewrite ?MAGNITUDE_vneg, ?VUNITIZE_vneg;
  generalize (VUNITIZE e1) (VUNITIZE e2) (VUNITIZE e3)
             (MAGNITUDE e1) (MAGNITUDE e2) (MAGNITUDE e3);
  intros.

(** X6.  On binary64, for all arguments and every tolerance, replacing an
    extent vector by its opposite leaves the result unchanged: any extent
    vector of either box in bg_sat_obb_obb, any extent vector of the
    oriented box in bg_sat_abb_obb.  Rounding is symmetric in the sign, and
    every r is taken through fabs. *)
Theorem extent_sign_binary64 :
  forall (eps : PrimFloat.float) (c0 f1 f2 f3 c1 e1 e2 e3 mn mx : vect_t PrimFloat.float),
    (bg_sat_obb_obb eps c0 f1 f2 f3 c1 (vneg e1) e2 e3
     = bg_sat_obb_obb eps c0 f1 f2 f3 c1 e1 e2 e3 /\
     bg_sat_obb_obb eps c0 f1 f2 f3 c1 e1 (vneg e2) e3
     = bg_sat_obb_obb eps c0 f1 f2 f3 c1 e1 e2 e3 /\
     bg_sat_obb_obb eps c0 f1 f2 f3 c1 e1 e2 (vneg e3)
     = bg_sat_obb_obb eps c0 f1 f2 f3 c1 e1 e2 e3) /\
    (bg_sat_obb_obb eps c0 (vneg f1) f2 f3 c1 e1 e2 e3
     = bg_sat_obb_obb eps c0 f1 f2 f3 c1 e1 e2 e3 /\
     bg_sat_obb_obb eps c0 f1 (vneg f2) f3 c1 e1 e2 e3
     = bg_sat_obb_obb eps c0 f1 f2 f3 c1 e1 e2 e3 /\
     bg_sat_obb_obb eps c0 f1 f2 (vneg f3) c1 e1 e2 e3
     = bg_sat_obb_obb eps c0 f1 f2 f3 c1 e1 e2 e3) /\
    (bg_sat_abb_obb eps mn mx c1 (vneg e1) e2 e3 = bg_sat_abb_obb eps mn mx c1 e1 e2 e3 /\
     bg_sat_abb_obb eps mn mx c1 e1 (vneg e2) e3 = bg_sat_abb_obb eps mn mx c1 e1 e2 e3 /\
     bg_sat_abb_obb eps mn mx c1 e1 e2 (vneg e3) = bg_sat_abb_obb eps mn mx c1 e1 e2 e3).
Proof.
  intros eps c0 f1 f2 f3 c1 e1 e2 e3 mn mx.
  split; [| split]; (split; [| split]).
  all: rewrite ?bg_sat_obb_obb_verdict, ?bg_sat_abb_obb_verdict; cbv zeta.
  all: generalize (VSUB2 c1 c0) (VSUB2 c1 (abb_center mn mx)) (abb_halfext mn mx); intros D D' H'.
  all: sign_normal e1 e2 e3; sign_normal f1 f2 f3.
  all: apply sat_verdict_eq; sign_unfold; [same_list | reflexivity | same_list].
Qed.

(** ** binary64: boxes with a common centre *)

Section SpecSigns.
Variables (prec emax : Z).

Lemma binary_round_aux_not_negative (m e : Z) (l : location) :
  sf_not_negative (binary_round_aux prec emax false m e l).
Proof.
  unfold binary_round_aux.
  destruct (shr_fexp prec emax m e l) as [mrs' e'].
  destruct (shr_fexp prec emax _ e' loc_Exact) as [mrs'' e''].
  destruct (shr_m mrs''); cbn; auto.
  destruct (Z.leb e'' (emax - prec)); cbn; auto.
Qed.

Lemma binary_round_not_negative (m : positive) (e : Z) :
  sf_not_negative (binary_round prec emax false m e).
Proof.
  unfold binary_round. destruct (shl_align _ _ _) as [mz ez].
  apply binary_round_aux_not_negative.
Qed.

Lemma SFsub_diag (x : spec_float) : sf_zero_or_nan (SFsub prec emax x x).
Proof.
  destruct x as [s | s | | s m e]; cbn [SFsub]; try (destruct s; exact I); try exact I.
  rewrite Z.sub_diag. exact I.
Qed.

Lemma SFmul_zero_or_nan_l (x y : spec_float) :
  sf_zero_or_nan x -> sf_zero_or_nan (SFmul prec emax x y).
Proof. destruct x, y; cbn; tauto. Qed.

Lemma SFmul_zero_or_nan_r (x y : spec_float) :
  sf_zero_or_nan y -> sf_zero_or_nan (SFmul prec emax x y).
Proof. destruct x, y; cbn; tauto. Qed.

Lemma SFadd_zero_or_nan (x y : spec_float) :
  sf_zero_or_nan x -> sf_zero_or_nan y -> sf_zero_or_nan (SFadd prec emax x y).
Proof.
  destruct x as [sx | | |], y as [sy | | |]; cbn; try tauto.
  destruct sx, sy; cbn; tauto.
Qed.

Lemma SFsub_zero_or_nan (x y : spec_float) :
  sf_zero_or_nan x -> sf_zero_or_nan y -> sf_zero_or_nan (SFsub prec emax x y).
Proof.
  destruct x as [sx | | |], y as [sy | | |]; cbn; try tauto.
  destruct sx, sy; cbn; tauto.
Qed.

Lemma SFabs_not_negative (x : spec_float) : sf_not_negative (SFabs x).
Proof. destruct x; exact I. Qed.

Lemma SFsqrt_not_negative (x : spec_float) : sf_not_negative (SFsqrt prec emax x).
Proof.
  destruct x as [s | s | | s m e]; cbn [SFsqrt]; try exact I.
  - destruct s; exact I.
  - destruct s; [exact I |].
    destruct (SFsqrt_core_binary _ _ _ _) as [[mz ez] lz].
    apply binary_round_aux_not_negative.
Qed.

Lemma SFmul_not_negative (x y : spec_float) :
  sf_not_negative x -> sf_not_negative y -> sf_not_negative (SFmul prec emax x y).
Proof.
  destruct x as [sx | sx | | sx mx ex], y as [sy | sy | | sy my ey];
    try (destruct sx); try (destruct sy); cbn [sf_not_negative SFmul xorb];
    try tauto.
  intros _ _. apply binary_round_aux_not_negative.
Qed.

Lemma SFadd_not_negative (x y : spec_float) :
  sf_not_negative x -> sf_not_negative y -> sf_not_negative (SFadd prec emax x y).
Proof.
  destruct x as [sx | sx | | sx mx ex], y as [sy | sy | | sy my ey];
    try (destruct sx); try (destruct sy); cbn [sf_not_negative SFadd];
    try tauto.
  intros _ _. cbn [cond_Zopp Z.add binary_normalize]. apply binary_round_not_negative.
Qed.

Lemma SFltb_centred (r01 t : spec_float) :
  sf_not_negative r01 -> sf_zero_or_nan t -> SFltb r01 (SFabs t) = false.
Proof.
  destruct r01 as [s | s | | s m e], t as [s' | s' | | s' m' e'];
    try (destruct s); cbn; tauto.
Qed.

End SpecSigns.

Lemma not_negative_spec (x : PrimFloat.float) :
  not_negative x <-> sf_not_negative (FloatOps.Prim2SF x).
Proof.
  unfold not_negative. rewrite FloatAxioms.ltb_spec.
  change (FloatOps.Prim2SF PrimFloat.zero) with (S754_zero false).
  destruct (FloatOps.Prim2SF x) as [s | s | | s m e]; try (destruct s); cbn;
    split; intros H; try reflexivity; try exact I; try discriminate; try contradiction.
Qed.

Lemma sub_diag_zero_or_nan (x : PrimFloat.float) : zero_or_nan (PrimFloat.sub x x).
Proof. unfold zero_or_nan. rewrite FloatAxioms.sub_spec. apply SFsub_diag. Qed.

Lemma mul_zero_or_nan_l (x y : PrimFloat.float) :
  zero_or_nan x -> zero_or_nan (PrimFloat.mul x y).
Proof. unfold zero_or_nan. rewrite FloatAxioms.mul_spec. apply SFmul_zero_or_nan_l. Qed.

Lemma mul_zero_or_nan_r (x y : PrimFloat.float) :
  zero_or_nan y -> zero_or_nan (PrimFloat.mul x y).
Proof. unfold zero_or_nan. rewrite FloatAxioms.mul_spec. apply SFmul_zero_or_nan_r. Qed.

Lemma add_zero_or_nan (x y : PrimFloat.float) :
  zero_or_nan x -> zero_or_nan y -> zero_or_nan (PrimFloat.add x y).
Proof. unfold zero_or_nan. rewrite FloatAxioms.add_spec. apply SFadd_zero_or_nan. Qed.

Lemma sub_zero_or_nan (x y : PrimFloat.float) :
  zero_or_nan x -> zero_or_nan y -> zero_or_nan (PrimFloat.sub x y).
Proof. unfold zero_or_nan. rewrite FloatAxioms.sub_spec. apply SFsub_zero_or_nan. Qed.

Lemma abs_not_negative (x : PrimFloat.float) : not_negative (PrimFloat.abs x).
Proof. apply not_negative_spec. rewrite FloatAxioms.abs_spec. apply SFabs_not_negative. Qed.

Lemma sqrt_not_negative (x : PrimFloat.float) : not_negative (PrimFloat.sqrt x).
Proof. apply not_negative_spec. rewrite FloatAxioms.sqrt_spec. apply SFsqrt_not_negative. Qed.

Lemma mul_not_negative (x y : PrimFloat.float) :
  not_negative x -> not_negative y -> not_negative (PrimFloat.mul x y).
Proof.
  rewrite !not_negative_spec, FloatAxioms.mul_spec. apply SFmul_not_negative.
Qed.

Lemma add_not_negative (x y : PrimFloat.float) :
  not_negative x -> not_negative y -> not_negative (PrimFloat.add x y).
Proof.
  rewrite !not_negative_spec, FloatAxioms.add_spec. apply SFadd_not_negative.
Qed.

(** With [r] the absolute value of a zero or of a NaN and [r01] not
    negative, [r > r01] is false. *)
Lemma separates_centred (t r01 : PrimFloat.float) :
  zero_or_nan t -> not_negative r01 -> separates (PrimFloat.abs t, r01) = false.
Proof.
  intros Ht Hr. apply not_negative_spec in Hr. unfold separates. cbn [fst snd].
  change (@fgt PrimFloat.float fastf_double (PrimFloat.abs t) r01)
    with (PrimFloat.ltb r01 (PrimFloat.abs t)).
  rewrite FloatAxioms.ltb_spec, FloatAxioms.abs_spec. now apply SFltb_centred.
Qed.

(** The three coordinates of a vector are zeros or NaNs; are not negative. *)
Ltac zn_tac :=
  lazymatch goal with
  | |- zero_or_nan (PrimFloat.add _ _) => apply add_zero_or_nan; zn_tac
  | |- zero_or_nan (PrimFloat.sub _ _) => apply sub_zero_or_nan; zn_tac
  | |- zero_or_nan (PrimFloat.mul _ _) =>
      first [ apply mul_zero_or_nan_l; zn_tac | apply mul_zero_or_nan_r; zn_tac ]
  | |- zero_or_nan _ => assumption
  end.

Ltac nn_tac :=
  lazymatch goal with
  | |- not_negative (PrimFloat.add _ _) => apply add_not_negative; nn_tac
  | |- not_negative (PrimFloat.mul _ _) => apply mul_not_negative; nn_tac
  | |- not_negative (PrimFloat.abs _) => apply abs_not_negative
  | |- not_negative (PrimFloat.sqrt _) => apply sqrt_not_negative
  | |- not_negative _ => assumption
  end.

Ltac centred_list :=
  repeat (apply Forall_cons; [apply separates_centred; [zn_tac | nn_tac] |]);
  apply Forall_nil.

Ltac table_hyps Hab :=
  pose proof (Hab 0%nat 0%nat ltac:(lia) ltac:(lia));
  pose proof (Hab 0%nat 1%nat ltac:(lia) ltac:(lia));
  pose proof (Hab 0%nat 2%nat ltac:(lia) ltac:(lia));
  pose proof (Hab 1%nat 0%nat ltac:(lia) ltac:(lia));
  pose proof (Hab 1%nat 1%nat ltac:(lia) ltac:(lia));
  pose proof (Hab 1%nat 2%nat ltac:(lia) ltac:(lia));
  pose proof (Hab 2%nat 0%nat ltac:(lia) ltac:(lia));
  pose proof (Hab 2%nat 1%nat ltac:(lia) ltac:(lia));
  pose proof (Hab 2%nat 2%nat ltac:(lia) ltac:(lia)).

Section Centred.
Variables (x y z m0 m1 m2 n0 n1 n2 : PrimFloat.float).
Variables (A0 A1 : nat -> vect_t PrimFloat.float) (d ab : table PrimFloat.float).
Hypothesis Hx : zero_or_nan x.
Hypothesis Hy : zero_or_nan y.
Hypothesis Hz : zero_or_nan z.
Hypothesis Hm0 : not_negative m0.
Hypothesis Hm1 : not_negative m1.
Hypothesis Hm2 : not_negative m2.
Hypothesis Hn0 : not_negative n0.
Hypothesis Hn1 : not_negative n1.
Hypothesis Hn2 : not_negative n2.
Hypothesis Hab : forall i j, (i < 3)%nat -> (j < 3)%nat -> not_negative (ab i j).

Lemma face_axes_centred_abb :
  Forall (fun ax => separates ax = false)
         (face_axes (mkvect x y z) (mkvect x y z) (mkvect m0 m1 m2) (mkvect n0 n1 n2) A1 ab).
Proof.
  table_hyps Hab. unfold face_axes, VDOT. cbn [vidx vX vY vZ]. float_prims. centred_list.
Qed.

Lemma face_axes_centred_obb :
  Forall (fun ax => separates ax = false)
         (face_axes (obb_dotDA0 (mkvect x y z) A0) (mkvect x y z)
                    (mkvect m0 m1 m2) (mkvect n0 n1 n2) A1 ab).
Proof.
  table_hyps Hab. unfold face_axes, obb_dotDA0, VDOT. cbn [vidx vX vY vZ]. float_prims.
  centred_list.
Qed.

Lemma edge_axes_centred_abb :
  Forall (fun ax => separates ax = false)
         (edge_axes (mkvect x y z) (mkvect m0 m1 m2) (mkvect n0 n1 n2) d ab).
Proof.
  table_hyps Hab. unfold edge_axes. cbn [vidx vX vY vZ]. float_prims. centred_list.
Qed.

Lemma edge_axes_centred_obb :
  Forall (fun ax => separates ax = false)
         (edge_axes (obb_dotDA0 (mkvect x y z) A0) (mkvect m0 m1 m2) (mkvect n0 n1 n2) d ab).
Proof.
  table_hyps Hab. unfold edge_axes, obb_dotDA0, VDOT. cbn [vidx vX vY vZ]. float_prims.
  centred_list.
Qed.

End Centred.

Lemma MAGNITUDE_not_negative (v : vect_t PrimFloat.float) : not_negative (MAGNITUDE v).
Proof. unfold MAGNITUDE. float_prims. apply sqrt_not_negative. Qed.

Lemma abb_dots_not_negative (eps : PrimFloat.float) (A1 : nat -> vect_t PrimFloat.float) :
  forall i j, (i < 3)%nat -> (j < 3)%nat -> not_negative (t_absDot01 (abb_dots eps A1) i j).
Proof.
  intros i j Hi Hj.
  destruct i as [|[|[|i]]]; [| | | lia]; (destruct j as [|[|[|j]]]; [| | | lia]);
    cbv beta iota zeta delta
      [abb_dots abb_row for3 fold_left seq tset t_dot01 t_absDot01 t_existsParallelPair
       dots_init Nat.eqb andb vidx];
    float_prims; apply abs_not_negative.
Qed.

Lemma obb_dots_not_negative (eps : PrimFloat.float) (A0 A1 : nat -> vect_t PrimFloat.float) :
  forall i j, (i < 3)%nat -> (j < 3)%nat -> not_negative (t_absDot01 (obb_dots eps A0 A1) i j).
Proof.
  intros i j Hi Hj.
  destruct i as [|[|[|i]]]; [| | | lia]; (destruct j as [|[|[|j]]]; [| | | lia]);
    cbv beta iota zeta delta
      [obb_dots obb_row obb_row0 for3 fold_left seq tset t_dot01 t_absDot01
       t_existsParallelPair dots_init Nat.eqb andb vidx];
    float_prims; apply abs_not_negative.
Qed.

Lemma sat_verdict_Forall {T} {ops : fastf_ops T} (f e : list (T * T)) (flag : Z) :
  Forall (fun ax => separates ax = false) f ->
  Forall (fun ax => separates ax = false) e ->
  sat_verdict f flag e = 1%Z.
Proof.
  intros Hf He. apply sat_verdict_no_separation. intros ax Hin.
  apply in_app_or in Hin. destruct Hin as [Hin | Hin].
  - exact (proj1 (Forall_forall _ _) Hf ax Hin).
  - exact (proj1 (Forall_forall _ _) He ax Hin).
Qed.

(** X12.  On binary64, for all arguments and every tolerance,
    bg_sat_obb_obb returns 1 when the two centres are the same double
    (finite, infinite or NaN): D = c - c is a zero or a NaN in every
    coordinate, so is whatever each fabs is applied to, and no r01 is
    negative.  bg_sat_abb_obb returns 1 when the oriented box is centred at
    the C0 the code computes and the computed half extents
    E0 = (max - min) * 0.5 are not negative. *)
Theorem common_centre_binary64 :
  (forall (eps : PrimFloat.float) (c f1 f2 f3 e1 e2 e3 : vect_t PrimFloat.float),
     bg_sat_obb_obb eps c f1 f2 f3 c e1 e2 e3 = 1%Z) /\
  (forall (eps : PrimFloat.float) (mn mx e1 e2 e3 : vect_t PrimFloat.float),
     not_negative (vX (abb_halfext mn mx)) ->
     not_negative (vY (abb_halfext mn mx)) ->
     not_negative (vZ (abb_halfext mn mx)) ->
     bg_sat_abb_obb eps mn mx (abb_center mn mx) e1 e2 e3 = 1%Z).
Proof.
  assert (HD : forall c : vect_t PrimFloat.float,
            exists x y z, VSUB2 c c = mkvect x y z /\
                          zero_or_nan x /\ zero_or_nan y /\ zero_or_nan z).
  { intros c. unfold VSUB2. float_prims. eexists _, _, _. split; [reflexivity |].
    repeat split; apply sub_diag_zero_or_nan. }
  split.
  - intros. rewrite bg_sat_obb_obb_verdict. cbv zeta.
    destruct (HD c) as (x & y & z & -> & Hx & Hy & Hz).
    unfold obb_halfext, VSET.
    apply sat_verdict_Forall;
      [apply face_axes_centred_obb | apply edge_axes_centred_obb];
      auto using MAGNITUDE_not_negative, obb_dots_not_negative.
  - intros eps mn mx e1 e2 e3 Ex Ey Ez. rewrite bg_sat_abb_obb_verdict. cbv zeta.
    destruct (HD (abb_center mn mx)) as (x & y & z & -> & Hx & Hy & Hz).
    destruct (abb_halfext mn mx) as [h0 h1 h2]. cbn [vX vY vZ] in Ex, Ey, Ez.
    unfold obb_halfext, VSET.
    apply sat_verdict_Forall;
      [apply face_axes_centred_abb | apply edge_axes_centred_abb];
      auto using MAGNITUDE_not_negative, abb_dots_not_negative.
Qed.

(** X12 at the aligned box [-1 .. 3] x [0 .. 2] x [0 .. 0] and a degenerate
    oriented box at the centre the code computes. *)
Lemma common_centre_binary64_witness :
  bg_sat_abb_obb tol_double (ivect (-1) 0 0) (ivect 3 2 0)
                 (abb_center (ivect (-1) 0 0) (ivect 3 2 0))
                 (ivect 1 1 0) (ivect 0 0 0) (ivect 2 0 5) = 1%Z.
Proof.
  apply (proj2 common_centre_binary64 tol_double (ivect (-1) 0 0) (ivect 3 2 0));
    vm_compute; reflexivity.
Defined.
